(** * HawkinsDB RAG example: text -> record -> store, and context-grounded answers

    A shallow embedding of [examples/HawkinDB_RAG.py].  The script owns no
    storage and no model: it orchestrates three collaborators (the chat
    completion client, the memory store, the [json] module) and shapes what
    they return into result envelopes.  The embedding therefore

    - keeps Python values as an inductive type [pyval] (the envelopes are
      the dicts the source builds, key order included);
    - abstracts the collaborators in a record [Backend], every call being a
      state transformer that may raise;
    - runs the methods of [TextToHawkinsDB] in a state-and-exception monad
      over the object, [try]/[except Exception] being [try_except];
    - records every call to a collaborator and to the logger in a ghost
      [trace], so that "is never invoked" is a statement about the trace.

    Exceptions are instances of Python's [Exception]; [KeyboardInterrupt]
    and [SystemExit], which [except Exception] lets through, are outside
    the model. *)

From Stdlib Require Import ZArith String Ascii List.
From stdpp Require Import strings pretty gmap.

Local Open Scope string_scope.
Local Open Scope list_scope.

(** ** Python values *)

Module Py.

(** The values the script handles: what [json.loads] produces, what the
    store hands back, and the envelopes.  A dict keeps insertion order. *)
#[local] Unset Elimination Schemes.
Inductive pyval : Type :=
| PNone
| PBool (b : bool)
| PInt (z : Z)
| PStr (s : string)
| PList (l : list pyval)
| PDict (d : list (string * pyval)).
#[local] Set Elimination Schemes.

(** [bool(v)]: what [if v] and [if not v] test. *)
Definition truthy (v : pyval) : bool :=
  match v with
  | PNone => false
  | PBool b => b
  | PInt z => negb (Z.eqb z 0)
  | PStr s => negb (String.eqb s EmptyString)
  | PList l => negb (Nat.eqb (List.length l) 0)
  | PDict d => negb (Nat.eqb (List.length d) 0)
  end.

(** [d.get(k)] on the association list of a dict: first binding of [k]. *)
Fixpoint assoc (k : string) (d : list (string * pyval)) : option pyval :=
  match d with
  | [] => None
  | (k', v) :: rest => if String.eqb k k' then Some v else assoc k rest
  end.

(** [v.get(k)] for a value: [None] when [v] is no dict or lacks [k]. *)
Definition get (k : string) (v : pyval) : option pyval :=
  match v with
  | PDict d => assoc k d
  | _ => None
  end.

(** [k in v] for a value that is a dict. *)
Definition has_key (k : string) (v : pyval) : bool :=
  match get k v with Some _ => true | None => false end.

(** A Python [str] or [None], as a value. *)
Definition of_opt_str (o : option string) : pyval :=
  match o with Some s => PStr s | None => PNone end.

(** A [List[str]] as a value. *)
Definition of_str_list (l : list string) : pyval := PList (map PStr l).

(** An exception object: its class and [str(e)]. *)
Record exn : Type := Exn { exn_class : string; str : string }.

Definition ValueError (msg : string) : exn := Exn "ValueError" msg.
Definition TypeError (msg : string) : exn := Exn "TypeError" msg.

(** The outcome of a Python call: a value or a raised exception. *)
Inductive result (A : Type) : Type :=
| Ok (a : A)
| Raise (e : exn).

Arguments Ok {A} a.
Arguments Raise {A} e.

(** [a or b] on [Optional[str]]: [a] when truthy, else [b]. *)
Definition or_ (a b : option string) : option string :=
  if truthy (of_opt_str a) then a else b.

End Py.

Import Py.

(** ** Strings of the source *)

Definition nl : string := String "010"%char EmptyString.
Definition dq : string := String "034"%char EmptyString.
Definition unlines (ls : list string) : string := String.concat nl ls.

(** [' '.join(parts)] *)
Definition join_space (parts : list string) : string := String.concat " " parts.

(** The instruction of [text_to_json], the triple-quoted literal as written. *)
Definition extraction_prompt : string :=
  unlines [
    "Convert the following text into a structured JSON format suitable for a memory database. ";
    "        ";
    "        Rules:";
    "        1. Extract key entity details, properties, and relationships";
    "        2. Use underscores for entity names (e.g., Python_Language)";
    "        3. Categorize memory as one of: Semantic, Episodic, or Procedural";
    "        4. Include relevant properties and relationships";
    "        ";
    "        Required JSON format:";
    "        {";
    "            " +:+ dq +:+ "column" +:+ dq +:+ ": " +:+ dq +:+ "memory_type" +:+ dq +:+ ",";
    "            " +:+ dq +:+ "name" +:+ dq +:+ ": " +:+ dq +:+ "entity_name" +:+ dq +:+ ",";
    "            " +:+ dq +:+ "properties" +:+ dq +:+ ": {";
    "                " +:+ dq +:+ "key1" +:+ dq +:+ ": " +:+ dq +:+ "value1" +:+ dq +:+ ",";
    "                " +:+ dq +:+ "key2" +:+ dq +:+ ": [" +:+ dq +:+ "value2a" +:+ dq +:+ ", " +:+ dq +:+ "value2b" +:+ dq +:+ "]";
    "            },";
    "            " +:+ dq +:+ "relationships" +:+ dq +:+ ": {";
    "                " +:+ dq +:+ "related_to" +:+ dq +:+ ": [" +:+ dq +:+ "entity1" +:+ dq +:+ ", " +:+ dq +:+ "entity2" +:+ dq +:+ "],";
    "                " +:+ dq +:+ "part_of" +:+ dq +:+ ": [" +:+ dq +:+ "parent_entity" +:+ dq +:+ "]";
    "            }";
    "        }";
    EmptyString;
    "        Text to convert:";
    "        "
  ].

(** The f-string of [query_by_text], cut at its two placeholders. *)
Definition answer_prompt_head : string :=
  unlines [
    "You are a helpful assistant with access to a knowledge base.";
    "            Answer the following question based on this context:";
    EmptyString;
    "            Context:";
    "            "
  ].

Definition answer_prompt_mid : string :=
  unlines [
    EmptyString;
    EmptyString;
    "            Question: "
  ].

Definition answer_prompt_tail : string :=
  unlines [
    EmptyString;
    EmptyString;
    "            Rules:";
    "            1. Only use information from the provided context";
    "            2. If information is not in the context, say so";
    "            3. Be specific and include details when available";
    "            4. Format numbers and dates clearly";
    "            "
  ].

Definition answer_prompt (context query_text : string) : string :=
  answer_prompt_head +:+ context +:+ answer_prompt_mid +:+ query_text
    +:+ answer_prompt_tail.

(** ** Requests to the completion client *)

Record message : Type := Message { role : string; content : string }.

(** The keyword arguments of [chat.completions.create].  [temperature] is
    kept as the decimal literal of the source. *)
Record request : Type := Request {
  model : string;
  messages : list message;
  temperature : string;
  max_tokens : option Z;
  response_format : option string
}.

(** ** Process environment and module import *)

Definition OPENAI_API_KEY : string := "OPENAI_API_KEY".

(** [os.getenv(name)] *)
Definition getenv (environ : gmap string string) (name : string) : option string :=
  environ !! name.

(** The one top-level statement that touches the process:
    [os.environ["OPENAI_API_KEY"]=""], run when the module is imported. *)
Definition import_module (environ : gmap string string) : gmap string string :=
  <[OPENAI_API_KEY := EmptyString]> environ.

(** ** The collaborators *)

(** The completion client, the memory store and the [json] module, as the
    script sees them: calls that return or raise, the first two with a
    state of their own.  [json_loads] receives [message.content], which
    the client types [Optional[str]]; [json_dumps] is
    [json.dumps(_, indent=2)]. *)
Record Backend : Type := {
  Oracle : Type;
  Store : Type;
  new_client : string -> result Oracle;
  new_db : string -> result Store;
  chat_create : request -> Oracle -> result (option string) * Oracle;
  db_add_entity : pyval -> Store -> result pyval * Store;
  db_list_entities : Store -> result (list string) * Store;
  db_query_frames : string -> Store -> result pyval * Store;
  json_loads : option string -> result pyval;
  json_dumps : pyval -> result string
}.

(** What the ghost trace records. *)
Inductive event : Type :=
| EvChat (req : request)
| EvAddEntity (record : pyval)
| EvListEntities
| EvQueryFrames (entity_name : string)
| EvLog (level msg : string).

Definition is_chat (ev : event) : bool :=
  match ev with EvChat _ => true | _ => false end.

Definition is_write (ev : event) : bool :=
  match ev with EvAddEntity _ => true | _ => false end.

Definition not_a_write (ev : event) : bool := negb (is_write ev).

Section Component.

Context (B : Backend).

(** The object: the three attributes [__init__] sets, and the trace. *)
Record TextToHawkinsDB : Type := Self {
  api_key : string;
  client : Oracle B;
  db : Store B;
  trace : list event
}.

(** *** The monad of method bodies *)

Definition M (A : Type) : Type := TextToHawkinsDB -> result A * TextToHawkinsDB.

Definition ret {A} (a : A) : M A := fun self => (Ok a, self).

Definition raise {A} (e : exn) : M A := fun self => (Raise e, self).

Definition bind {A C} (m : M A) (k : A -> M C) : M C :=
  fun self =>
    match m self with
    | (Ok a, self') => k a self'
    | (Raise e, self') => (Raise e, self')
    end.

(** [try: body except Exception as e: handler]; what [body] did to the
    object before raising stays done. *)
Definition try_except {A} (body : M A) (handler : exn -> M A) : M A :=
  fun self =>
    match body self with
    | (Ok a, self') => (Ok a, self')
    | (Raise e, self') => handler e self'
    end.

(** A call of a pure library function that may raise. *)
Definition lift {A} (r : result A) : M A := fun self => (r, self).

Definition emit (ev : event) (self : TextToHawkinsDB) : TextToHawkinsDB :=
  Self (api_key self) (client self) (db self) (trace self ++ [ev]).

Definition set_client (o : Oracle B) (self : TextToHawkinsDB) : TextToHawkinsDB :=
  Self (api_key self) o (db self) (trace self).

Definition set_db (d : Store B) (self : TextToHawkinsDB) : TextToHawkinsDB :=
  Self (api_key self) (client self) d (trace self).

(** [self.client.chat.completions.create(...)] followed by
    [response.choices[0].message.content]. *)
Definition client_create (req : request) : M (option string) :=
  fun self =>
    let self1 := emit (EvChat req) self in
    let '(r, o) := chat_create B req (client self1) in
    (r, set_client o self1).

(** [self.db.add_entity(record)] *)
Definition self_db_add_entity (record : pyval) : M pyval :=
  fun self =>
    let self1 := emit (EvAddEntity record) self in
    let '(r, d) := db_add_entity B record (db self1) in
    (r, set_db d self1).

(** [self.db.list_entities()] *)
Definition self_db_list_entities : M (list string) :=
  fun self =>
    let self1 := emit EvListEntities self in
    let '(r, d) := db_list_entities B (db self1) in
    (r, set_db d self1).

(** [self.db.query_frames(entity_name)] *)
Definition self_db_query_frames (entity_name : string) : M pyval :=
  fun self =>
    let self1 := emit (EvQueryFrames entity_name) self in
    let '(r, d) := db_query_frames B entity_name (db self1) in
    (r, set_db d self1).

(** [logger.error(msg)], [logger.info(msg)] *)
Definition logger_error (msg : string) : M unit :=
  fun self => (Ok tt, emit (EvLog "ERROR" msg) self).

Definition logger_info (msg : string) : M unit :=
  fun self => (Ok tt, emit (EvLog "INFO" msg) self).

End Component.

Arguments Self {B} _ _ _ _.
Arguments api_key {B} _.
Arguments client {B} _.
Arguments db {B} _.
Arguments trace {B} _.
Arguments ret {B A} _ _.
Arguments raise {B A} _ _.
Arguments bind {B A C} _ _ _.
Arguments try_except {B A} _ _ _.
Arguments lift {B A} _ _.
Arguments emit {B} _ _.

Declare Scope py_scope.
Delimit Scope py_scope with py.
Notation "x <- m ;; k" := (bind m (fun x => k))
  (at level 100, m at next level, right associativity) : py_scope.
Notation "m ;;; k" := (bind m (fun _ => k))
  (at level 100, right associativity) : py_scope.

(** ** The class [TextToHawkinsDB] *)

Section Methods.

Context (B : Backend).

Local Open Scope py_scope.

(** [__init__(self, api_key=None)], given the process environment. *)
Definition __init__ (api_key : option string) (environ : gmap string string)
  : result (TextToHawkinsDB B) :=
  let self_api_key := or_ api_key (getenv environ OPENAI_API_KEY) in
  if negb (truthy (of_opt_str self_api_key)) then
    Raise (ValueError "OpenAI API key is required")
  else
    match self_api_key with
    | None => Raise (ValueError "OpenAI API key is required")
    | Some key =>
        match new_client B key with
        | Raise e => Raise e
        | Ok c =>
            match new_db B "sqlite" with
            | Raise e => Raise e
            | Ok d => Ok (Self key c d [])
            end
        end
    end.

Definition extraction_request (text : string) : request :=
  {| model := "gpt-3.5-turbo";
     messages := [Message "system" extraction_prompt; Message "user" text];
     temperature := "0.3";
     max_tokens := None;
     response_format := Some "json_object" |}.

(** The [try] block of [text_to_json]: one completion call, [json.loads]
    on its content. *)
Definition text_to_json_body (text : string) : M B pyval :=
  json_str <- client_create B (extraction_request text) ;;
  lift (json_loads B json_str).

(** [text_to_json]: the handler logs and re-raises. *)
Definition text_to_json (text : string) : M B pyval :=
  try_except (text_to_json_body text)
    (fun e =>
       logger_error B ("Error converting text to JSON: " +:+ str e) ;;;
       raise e).

Definition add_to_db_ok (json_data result : pyval) : pyval :=
  PDict [("success", PBool true);
         ("message", PStr "Successfully added to database");
         ("entity_data", json_data);
         ("db_result", result)].

Definition add_to_db_failed (e : exn) : pyval :=
  PDict [("success", PBool false);
         ("message", PStr (str e));
         ("entity_data", PNone);
         ("db_result", PNone)].

(** The [try] block of [add_to_db]. *)
Definition add_to_db_body (text : string) : M B pyval :=
  json_data <- text_to_json text ;;
  dumped <- lift (json_dumps B json_data) ;;
  logger_info B ("Converted JSON: " +:+ dumped) ;;;
  result <- self_db_add_entity B json_data ;;
  ret (add_to_db_ok json_data result).

Definition add_to_db (text : string) : M B pyval :=
  try_except (add_to_db_body text)
    (fun e =>
       logger_error B ("Error adding to database: " +:+ str e) ;;;
       ret (add_to_db_failed e)).

Definition entity_not_found (entity_name : string) : pyval :=
  PDict [("success", PBool false);
         ("message", PStr ("No entity found with name: " +:+ entity_name));
         ("data", PNone)].

Definition entity_found (frames : pyval) : pyval :=
  PDict [("success", PBool true);
         ("message", PStr "Entity found");
         ("data", frames)].

Definition query_entity_failed (e : exn) : pyval :=
  PDict [("success", PBool false);
         ("message", PStr (str e));
         ("data", PNone)].

(** The [try] block of [query_entity]. *)
Definition query_entity_body (entity_name : string) : M B pyval :=
  frames <- self_db_query_frames B entity_name ;;
  if negb (truthy frames) then ret (entity_not_found entity_name)
  else ret (entity_found frames).

Definition query_entity (entity_name : string) : M B pyval :=
  try_except (query_entity_body entity_name)
    (fun e =>
       logger_error B ("Error querying entity: " +:+ str e) ;;;
       ret (query_entity_failed e)).

Definition database_is_empty : pyval :=
  PDict [("success", PBool true);
         ("message", PStr "Database is empty");
         ("response", PStr "No information available in the database.")].

Definition query_processed (answer : option string) : pyval :=
  PDict [("success", PBool true);
         ("message", PStr "Query processed successfully");
         ("response", of_opt_str answer)].

Definition query_by_text_failed (e : exn) : pyval :=
  PDict [("success", PBool false);
         ("message", PStr (str e));
         ("response", PNone)].

(** The [for] loop of [query_by_text] over the entities still to visit,
    [context] being the list built so far. *)
Fixpoint build_context (entities : list string) (context : list string)
  : M B (list string) :=
  match entities with
  | [] => ret context
  | entity_name :: rest =>
      frames <- self_db_query_frames B entity_name ;;
      if truthy frames then
        block <- lift (json_dumps B frames) ;;
        build_context rest (context ++ [block])
      else build_context rest context
  end.

Definition answer_request (context : list string) (query_text : string) : request :=
  {| model := "gpt4o";
     messages := [Message "system" (answer_prompt (join_space context) query_text)];
     temperature := "0.3";
     max_tokens := Some 500%Z;
     response_format := None |}.

(** The [try] block of [query_by_text]. *)
Definition query_by_text_body (query_text : string) : M B pyval :=
  entities <- self_db_list_entities B ;;
  match entities with
  | [] => ret database_is_empty
  | _ :: _ =>
      context <- build_context (firstn 5 entities) [] ;;
      answer <- client_create B (answer_request context query_text) ;;
      ret (query_processed answer)
  end.

Definition query_by_text (query_text : string) : M B pyval :=
  try_except (query_by_text_body query_text)
    (fun e =>
       logger_error B ("Error processing query: " +:+ str e) ;;;
       ret (query_by_text_failed e)).

Definition entities_retrieved (entities : list string) : pyval :=
  PDict [("success", PBool true);
         ("message", PStr "Entities retrieved successfully");
         ("entities", of_str_list entities)].

Definition list_all_entities_failed (e : exn) : pyval :=
  PDict [("success", PBool false);
         ("message", PStr (str e));
         ("entities", PNone)].

(** The [try] block of [list_all_entities]. *)
Definition list_all_entities_body : M B pyval :=
  entities <- self_db_list_entities B ;;
  ret (entities_retrieved entities).

Definition list_all_entities : M B pyval :=
  try_except list_all_entities_body
    (fun e =>
       logger_error B ("Error listing entities: " +:+ str e) ;;;
       ret (list_all_entities_failed e)).

End Methods.

(** ** Collaborators to run the component on *)

Module Double.

(** Modelled from the spec: the memory store, whose code (the [hawkinsdb]
    package) is not part of the example.  Section 6 gives its interface as
    [add_entity(record) -> result], [list_entities() -> ordered sequence of
    identifiers], [query_frames(entity_id) -> sequence of frame records |
    empty].  The state lists the entities in insertion order, each with
    its frames; an unknown name has the empty dict of frames; reading
    changes nothing. *)
Definition store : Type := list (string * pyval).

Definition list_entities (d : store) : result (list string) * store :=
  (Ok (map fst d), d).

Definition query_frames (entity_name : string) (d : store) : result pyval * store :=
  match assoc entity_name d with
  | Some frames => (Ok frames, d)
  | None => (Ok (PDict []), d)
  end.

Definition add_entity (record : pyval) (d : store) : result pyval * store :=
  match get "name" record with
  | Some (PStr entity_name) =>
      (Ok (PDict [("success", PBool true); ("entity_name", PStr entity_name)]),
       d ++ [(entity_name, PDict [("Semantic", record)])])
  | _ => (Raise (ValueError "Entity name is required"), d)
  end.

(** A completion client that plays back a script of replies, one per call,
    and reports a connection error once the script is used up. *)
Definition oracle : Type := list (result (option string)).

Definition create (req : request) (o : oracle) : result (option string) * oracle :=
  match o with
  | [] => (Raise (Exn "APIConnectionError" "Connection error."), [])
  | reply :: rest => (reply, rest)
  end.

(** A reply in the very format [extraction_prompt] asks for. *)
Definition reply_as_instructed : string :=
  "{" +:+ dq +:+ "column" +:+ dq +:+ ": " +:+ dq +:+ "Semantic" +:+ dq +:+ ", "
      +:+ dq +:+ "name" +:+ dq +:+ ": " +:+ dq +:+ "Python_Language" +:+ dq +:+ ", "
      +:+ dq +:+ "properties" +:+ dq +:+ ": {}, "
      +:+ dq +:+ "relationships" +:+ dq +:+ ": {}}".

Definition record_as_instructed : pyval :=
  PDict [("column", PStr "Semantic");
         ("name", PStr "Python_Language");
         ("properties", PDict []);
         ("relationships", PDict [])].

(** [json.loads] on the documents the examples use; anything else is
    reported as undecodable, [None] as the type error it is. *)
Definition loads (doc : option string) : result pyval :=
  match doc with
  | None => Raise (TypeError "the JSON object must be str, bytes or bytearray, not NoneType")
  | Some s =>
      if String.eqb s "{}" then Ok (PDict [])
      else if String.eqb s reply_as_instructed then Ok record_as_instructed
      else Raise (Exn "JSONDecodeError" "Expecting value: line 1 column 1 (char 0)")
  end.

Definition spaces (n : nat) : string := String.concat EmptyString (repeat " " n).

(** [json.dumps(v, indent=2)] for values whose strings need no escaping. *)
Fixpoint dumps_at (depth : nat) (v : pyval) : string :=
  match v with
  | PNone => "null"
  | PBool true => "true"
  | PBool false => "false"
  | PInt z => pretty z
  | PStr s => dq +:+ s +:+ dq
  | PList [] => "[]"
  | PList l =>
      "[" +:+ nl
      +:+ String.concat ("," +:+ nl)
            (map (fun x => spaces (depth + 2) +:+ dumps_at (depth + 2) x) l)
      +:+ nl +:+ spaces depth +:+ "]"
  | PDict [] => "{}"
  | PDict d =>
      "{" +:+ nl
      +:+ String.concat ("," +:+ nl)
            (map (fun kv => spaces (depth + 2) +:+ dq +:+ fst kv +:+ dq +:+ ": "
                            +:+ dumps_at (depth + 2) (snd kv)) d)
      +:+ nl +:+ spaces depth +:+ "}"
  end.

Definition dumps (v : pyval) : result string := Ok (dumps_at 0 v).

Definition backend : Backend :=
  {| Oracle := oracle;
     Store := store;
     new_client := fun _ => Ok [];
     new_db := fun _ => Ok [];
     chat_create := create;
     db_add_entity := add_entity;
     db_list_entities := list_entities;
     db_query_frames := query_frames;
     json_loads := loads;
     json_dumps := dumps |}.

(** An object over the doubles: a script for the client, a store content. *)
Definition object (script : oracle) (content : store) : TextToHawkinsDB backend :=
  @Self backend "sk-test" script content [].

(** Store contents for the examples. *)
Definition python_frames : pyval :=
  PDict [("Semantic",
          PDict [("name", PStr "Python_Language");
                 ("properties", PDict [("creator", PStr "Guido van Rossum");
                                       ("year", PInt 1991)])])].

Definition six_entities : store :=
  [("A", PDict [("Semantic", PStr "a")]);
   ("B", PDict []);
   ("C", PList [PInt 3]);
   ("D", PDict [("Episodic", PStr "d")]);
   ("E", PDict [("Procedural", PStr "e")]);
   ("F", PDict [("Semantic", PStr "f")])].

End Double.

(** ** What the properties are stated with *)

Section Vocabulary.

Context (B : Backend).

(** The four operations that answer with an envelope. *)
Inductive operation : Type :=
| AddToDb (text : string)
| QueryEntity (entity_name : string)
| QueryByText (query_text : string)
| ListAllEntities.

Definition call (op : operation) : M B pyval :=
  match op with
  | AddToDb text => add_to_db B text
  | QueryEntity entity_name => query_entity B entity_name
  | QueryByText query_text => query_by_text B query_text
  | ListAllEntities => list_all_entities B
  end.

Definition try_block (op : operation) : M B pyval :=
  match op with
  | AddToDb text => add_to_db_body B text
  | QueryEntity entity_name => query_entity_body B entity_name
  | QueryByText query_text => query_by_text_body B query_text
  | ListAllEntities => list_all_entities_body B
  end.

(** The dict the [except] branch of an operation returns. *)
Definition failure_envelope (op : operation) (e : exn) : pyval :=
  match op with
  | AddToDb _ => add_to_db_failed e
  | QueryEntity _ => query_entity_failed e
  | QueryByText _ => query_by_text_failed e
  | ListAllEntities => list_all_entities_failed e
  end.

Definition is_read_path (op : operation) : bool :=
  match op with AddToDb _ => false | _ => true end.

(** The call hands a value back to its caller instead of raising. *)
Definition returns_normally {A} (m : M B A) (self : TextToHawkinsDB B) : Prop :=
  exists a, fst (m self) = Ok a.

(** The exception [e] leaves [m] when run on [self]. *)
Definition raised_in {A} (m : M B A) (self : TextToHawkinsDB B) (e : exn) : Prop :=
  exists self', m self = (Raise e, self').

(** The keys of the stored-record shape of section 3 of the specification. *)
Definition required_keys : list string :=
  ["category"; "name"; "properties"; "relationships"].

Definition has_required_keys (v : pyval) : bool :=
  forallb (fun k => has_key k v) required_keys.

(** The extraction guarantee in the specification's words: on non-empty
    text, a returned value has the four required keys. *)
Definition spec_extraction_guarantee (self : TextToHawkinsDB B) (text : string) : Prop :=
  text <> EmptyString ->
  match fst (text_to_json B text self) with
  | Ok v => has_required_keys v = true
  | Raise _ => True
  end.

(** The payload keys of the envelopes. *)
Definition payload_keys : list string :=
  ["entity_data"; "db_result"; "data"; "response"; "entities"].

Definition null_or_absent (k : string) (v : pyval) : bool :=
  match get k v with
  | None | Some PNone => true
  | Some _ => false
  end.

Definition payload_is_null (v : pyval) : bool :=
  forallb (fun k => null_or_absent k v) payload_keys.

(** No credential: the argument, or the variable, is [None] or empty. *)
Definition credential_absent (o : option string) : Prop :=
  o = None \/ o = Some EmptyString.

(** An empty result of the frame query: no frames, as a list or a dict. *)
Definition no_frames (v : pyval) : bool :=
  match v with
  | PList [] | PDict [] => true
  | _ => false
  end.

(** A name is absent from the store when the frame query for it comes
    back empty (section 6: "sequence of frame records | empty"). *)
Definition absent_from_store (entity_name : string) (d : Store B) : bool :=
  match db_query_frames B entity_name d with
  | (Ok frames, _) => no_frames frames
  | (Raise _, _) => false
  end.

(** The store's two read calls leave its state as it was. *)
Definition reads_preserve_store : Prop :=
  (forall d, snd (db_list_entities B d) = d) /\
  (forall entity_name d, snd (db_query_frames B entity_name d) = d).

(** The frame queries for [names], one after the other. *)
Fixpoint fetch_frames (names : list string) (d : Store B)
  : result (list pyval) * Store B :=
  match names with
  | [] => (Ok [], d)
  | entity_name :: rest =>
      match db_query_frames B entity_name d with
      | (Raise e, d1) => (Raise e, d1)
      | (Ok frames, d1) =>
          match fetch_frames rest d1 with
          | (Raise e, d2) => (Raise e, d2)
          | (Ok more, d2) => (Ok (frames :: more), d2)
          end
      end
  end.

(** [json.dumps(_, indent=2)] of each value of a list. *)
Fixpoint serialize_all (vs : list pyval) : result (list string) :=
  match vs with
  | [] => Ok []
  | v :: rest =>
      match json_dumps B v with
      | Raise e => Raise e
      | Ok block =>
          match serialize_all rest with
          | Raise e => Raise e
          | Ok blocks => Ok (block :: blocks)
          end
      end
  end.

(** The trace of [self'] is the trace of [self] followed by events that
    all satisfy [P]. *)
Definition extends (P : event -> bool) (self self' : TextToHawkinsDB B) : Prop :=
  exists evs, trace self' = trace self ++ evs /\ forallb P evs = true.

(** The store attribute is the same in both objects. *)
Definition same_db (self self' : TextToHawkinsDB B) : Prop :=
  db self' = db self.

(** Whatever the outcome, [m] takes an object to one related to it by [R]. *)
Definition respects (R : TextToHawkinsDB B -> TextToHawkinsDB B -> Prop)
  {A} (m : M B A) : Prop :=
  forall self, R self (snd (m self)).

End Vocabulary.

Arguments returns_normally {B A} _ _.
Arguments raised_in {B A} _ _ _.
Arguments extends {B} _ _ _.
Arguments same_db {B} _ _.
Arguments respects {B} _ {A} _.

(** ** The demonstration function *)

Section Harness.

Context (B : Backend).

Local Open Scope py_scope.

Definition example_1 : string :=
  unlines [
    EmptyString;
    "        Python is a programming language created by Guido van Rossum in 1991.";
    "        It supports object-oriented, imperative, and functional programming.";
    "        It's commonly used for web development, data science, and automation.";
    "        "
  ].

Definition example_2 : string :=
  unlines [
    EmptyString;
    "        Today I completed my first Python project in my home office.";
    "        It took 2 hours and was successful. I did a code review afterwards.";
    "        "
  ].

Definition example_3 : string :=
  unlines [
    EmptyString;
    "        The Tesla Model 3 is red, made in 2023, and parked in the garage.";
    "        It has a range of 358 miles and goes 0-60 mph in 3.1 seconds.";
    "        "
  ].

Definition examples : list string := [example_1; example_2; example_3].

Definition test_queries : list string :=
  ["What programming language was created by Guido van Rossum?";
   "Tell me about the Tesla Model 3's specifications.";
   "What happened during the first Python project?"].

(** ["=" * 50] *)
Definition rule_50 : string := String.concat EmptyString (repeat "=" 50).

(** [for i, example in enumerate(examples, 1): ...], from index [i] on. *)
Fixpoint add_examples (i : nat) (todo : list string) : M B unit :=
  match todo with
  | [] => ret tt
  | example :: rest =>
      logger_info B (nl +:+ "Adding Example " +:+ pretty i) ;;;
      logger_info B rule_50 ;;;
      result <- add_to_db B example ;;
      dumped <- lift (json_dumps B result) ;;
      logger_info B ("Result: " +:+ dumped) ;;;
      add_examples (S i) rest
  end.

(** [for query in test_queries: ...] *)
Fixpoint ask_queries (todo : list string) : M B unit :=
  match todo with
  | [] => ret tt
  | query :: rest =>
      logger_info B (nl +:+ "Query: " +:+ query) ;;;
      result <- query_by_text B query ;;
      dumped <- lift (json_dumps B result) ;;
      logger_info B ("Response: " +:+ dumped) ;;;
      ask_queries rest
  end.

(** [test_memory_examples] from after the construction of [converter] up
    to the argument of [print]. *)
Definition harness_until_print : M B pyval :=
  logger_info B (nl +:+ "Adding examples to database:") ;;;
  add_examples 1 examples ;;;
  logger_info B (nl +:+ "Testing queries:") ;;;
  logger_info B (nl +:+ "Listing all entities:") ;;;
  entities_result <- list_all_entities B ;;
  dumped <- lift (json_dumps B entities_result) ;;
  logger_info B ("Entities: " +:+ dumped) ;;;
  logger_info B (nl +:+ "Querying specific entity:") ;;;
  query_entity B "Python_Language".

(** [test_memory_examples] after [print]. *)
Definition harness_after_print : M B unit :=
  logger_info B (nl +:+ "Testing natural language queries:") ;;;
  ask_queries test_queries.

(** How a run of the demonstration ends: what it returned or raised, the
    object if one was constructed, and the values handed to [print]. *)
Record outcome : Type := Outcome {
  returned : result unit;
  converter : option (TextToHawkinsDB B);
  stdout : list pyval
}.

(** [test_memory_examples()], given the process environment.  Nothing in
    it catches an exception. *)
Definition test_memory_examples (environ : gmap string string) : outcome :=
  match __init__ B None environ with
  | Raise e => Outcome (Raise e) None []
  | Ok self0 =>
      match harness_until_print self0 with
      | (Raise e, self1) => Outcome (Raise e) (Some self1) []
      | (Ok entity_result, self1) =>
          let '(r, self2) := harness_after_print self1 in
          Outcome r (Some self2) [entity_result]
      end
  end.

(** Running the file as a script: the import, then the guarded call. *)
Definition main (environ : gmap string string) : outcome :=
  test_memory_examples (import_module environ).

End Harness.

Arguments returned {B} _.
Arguments converter {B} _.
Arguments stdout {B} _.

(** ** More vocabulary *)

Section MoreVocabulary.

Context (B : Backend).

(** The keys of the envelope of each operation, in the order of the dict. *)
Definition envelope_keys (op : operation) : list string :=
  match op with
  | AddToDb _ => ["success"; "message"; "entity_data"; "db_result"]
  | QueryEntity _ => ["success"; "message"; "data"]
  | QueryByText _ => ["success"; "message"; "response"]
  | ListAllEntities => ["success"; "message"; "entities"]
  end.

Definition keys_of (v : pyval) : option (list string) :=
  match v with
  | PDict d => Some (map fst d)
  | _ => None
  end.

Definition is_store_event (ev : event) : bool :=
  match ev with
  | EvAddEntity _ | EvListEntities | EvQueryFrames _ => true
  | _ => false
  end.

Definition is_log (ev : event) : bool :=
  match ev with EvLog _ _ => true | _ => false end.

(** What [text_to_json] makes of the reply: the decoded content, or the
    exception of the call or of [json.loads]. *)
Definition decoded_reply (text : string) (self : TextToHawkinsDB B) : result pyval :=
  match chat_create B (extraction_request text) (client self) with
  | (Ok reply, _) => json_loads B reply
  | (Raise e, _) => Raise e
  end.

(** The object once the extraction request has been sent. *)
Definition after_extraction_request (text : string) (self : TextToHawkinsDB B)
  : TextToHawkinsDB B :=
  set_client B (snd (chat_create B (extraction_request text) (client self)))
    (emit (EvChat (extraction_request text)) self).

(** [m] hands a value back on every object. *)
Definition never_raises {A} (m : M B A) : Prop :=
  forall self, returns_normally m self.

(** The events of [self'] that [self] did not have yet.  The trace only
    grows, so this drops the old ones. *)
Definition new_events (self self' : TextToHawkinsDB B) : list event :=
  skipn (List.length (trace self)) (trace self').

(** An exception leaves [m] only if [json.dumps] raised it. *)
Definition raises_only_from_dumps {A} (m : M B A) : Prop :=
  forall self e, fst (m self) = Raise e -> exists v, json_dumps B v = Raise e.

(** Between [self] and [self'] the completion client was sent exactly the
    requests [sent], in that order. *)
Definition sends (sent : list request) (self self' : TextToHawkinsDB B) : Prop :=
  exists evs,
    trace self' = trace self ++ evs /\ List.filter is_chat evs = map EvChat sent.

(** [os.environ[name] = value], the statement form of line 8, run by
    any code of the process. *)
Definition setenv (name value : string) (environ : gmap string string)
  : gmap string string :=
  <[name := value]> environ.

(** The environment at construction time: what the import left, then
    the assignments the process made since, in order. *)
Definition environ_after_import
  (environ : gmap string string) (assignments : list (string * string))
  : gmap string string :=
  fold_left (fun env kv => setenv (fst kv) (snd kv) env) assignments
    (import_module environ).

(** The fallback in the specification's words: after the import, a
    construction that omits [api_key] raises the missing-credential
    error, whatever the process did to the environment in between. *)
Definition spec_fallback_never_succeeds
  (environ : gmap string string) (assignments : list (string * string)) : Prop :=
  __init__ B None (environ_after_import environ assignments)
    = Raise (ValueError "OpenAI API key is required").

End MoreVocabulary.

Arguments raises_only_from_dumps {B A} _.
Arguments sends {B} _ _ _.

Arguments never_raises {B A} _.
Arguments new_events {B} _ _.

(** * Properties *)

(** ** Reasoning about method bodies *)

Section Invariants.

Context {B : Backend}.
Variable R : TextToHawkinsDB B -> TextToHawkinsDB B -> Prop.
Hypothesis R_refl : forall self, R self self.
Hypothesis R_trans : forall s1 s2 s3, R s1 s2 -> R s2 s3 -> R s1 s3.

Lemma respects_ret {A} (a : A) : respects R (ret a).
Proof. intros self. apply R_refl. Qed.

Lemma respects_raise {A} (e : exn) : respects R (@raise B A e).
Proof. intros self. apply R_refl. Qed.

Lemma respects_lift {A} (r : result A) : respects R (lift r).
Proof. intros self. apply R_refl. Qed.

Lemma respects_bind {A C} (m : M B A) (k : A -> M B C) :
  respects R m -> (forall a, respects R (k a)) -> respects R (bind m k).
Proof.
  intros Hm Hk self. unfold bind.
  specialize (Hm self).
  destruct (m self) as [[a | e] self1]; simpl in *.
  - eapply R_trans; [exact Hm | apply Hk].
  - exact Hm.
Qed.

Lemma respects_try_except {A} (body : M B A) (handler : exn -> M B A) :
  respects R body -> (forall e, respects R (handler e)) ->
  respects R (try_except body handler).
Proof.
  intros Hb Hh self. unfold try_except.
  specialize (Hb self).
  destruct (body self) as [[a | e] self1]; simpl in *.
  - exact Hb.
  - eapply R_trans; [exact Hb | apply Hh].
Qed.

End Invariants.

Section Traces.

Context {B : Backend}.
Variable P : event -> bool.

Lemma extends_refl (self : TextToHawkinsDB B) : extends P self self.
Proof. exists []. split; [symmetry; apply app_nil_r | reflexivity]. Qed.

Lemma extends_trans (s1 s2 s3 : TextToHawkinsDB B) :
  extends P s1 s2 -> extends P s2 s3 -> extends P s1 s3.
Proof.
  intros (evs1 & E1 & F1) (evs2 & E2 & F2).
  exists (evs1 ++ evs2). split.
  - rewrite E2, E1. symmetry. apply app_assoc.
  - rewrite forallb_app, F1, F2. reflexivity.
Qed.

Lemma extends_emit (ev : event) (self : TextToHawkinsDB B) :
  P ev = true -> extends P self (emit ev self).
Proof.
  intros Hev. exists [ev]. split; [reflexivity |].
  simpl. rewrite Hev. reflexivity.
Qed.

Lemma extends_client_create (req : request) :
  P (EvChat req) = true -> respects (extends P) (client_create B req).
Proof.
  intros Hev self. unfold client_create.
  destruct (chat_create B req (client (emit (EvChat req) self))) as [r o].
  apply (extends_emit _ self Hev).
Qed.

Lemma extends_add_entity (record : pyval) :
  P (EvAddEntity record) = true -> respects (extends P) (self_db_add_entity B record).
Proof.
  intros Hev self. unfold self_db_add_entity.
  destruct (db_add_entity B record (db (emit (EvAddEntity record) self))) as [r d].
  apply (extends_emit _ self Hev).
Qed.

Lemma extends_list_entities :
  P EvListEntities = true -> respects (extends P) (self_db_list_entities B).
Proof.
  intros Hev self. unfold self_db_list_entities.
  destruct (db_list_entities B (db (emit EvListEntities self))) as [r d].
  apply (extends_emit _ self Hev).
Qed.

Lemma extends_query_frames (entity_name : string) :
  P (EvQueryFrames entity_name) = true ->
  respects (extends P) (self_db_query_frames B entity_name).
Proof.
  intros Hev self. unfold self_db_query_frames.
  destruct (db_query_frames B entity_name (db (emit (EvQueryFrames entity_name) self)))
    as [r d].
  apply (extends_emit _ self Hev).
Qed.

Lemma extends_logger_error (msg : string) :
  P (EvLog "ERROR" msg) = true -> respects (extends P) (logger_error B msg).
Proof. intros Hev self. apply (extends_emit _ self Hev). Qed.

Lemma extends_logger_info (msg : string) :
  P (EvLog "INFO" msg) = true -> respects (extends P) (logger_info B msg).
Proof. intros Hev self. apply (extends_emit _ self Hev). Qed.

End Traces.

(** Splits a goal [respects (extends P) m] along the structure of [m]. *)
Ltac trace_step :=
  first
    [ apply respects_ret; [apply extends_refl]
    | apply respects_raise; [apply extends_refl]
    | apply respects_lift; [apply extends_refl]
    | apply extends_client_create; reflexivity
    | apply extends_add_entity; reflexivity
    | apply extends_list_entities; reflexivity
    | apply extends_query_frames; reflexivity
    | apply extends_logger_error; reflexivity
    | apply extends_logger_info; reflexivity
    | apply respects_bind; [apply extends_trans | | intros ?]
    | apply respects_try_except; [apply extends_trans | | intros ?] ].

Section TraceOfMethods.

Context (B : Backend).
Variable P : event -> bool.

Lemma build_context_extends (entities context : list string) :
  (forall entity_name, P (EvQueryFrames entity_name) = true) ->
  respects (extends P) (build_context B entities context).
Proof.
  intros HP. revert context.
  induction entities as [| entity_name rest IH]; intros context; simpl.
  - apply respects_ret. apply extends_refl.
  - apply respects_bind; [apply extends_trans | |].
    + apply extends_query_frames. apply HP.
    + intros frames. destruct (truthy frames).
      * apply respects_bind; [apply extends_trans | |].
        -- apply respects_lift. apply extends_refl.
        -- intros block. apply IH.
      * apply IH.
Qed.

End TraceOfMethods.

Section StoreAttribute.

Context {B : Backend}.

Lemma same_db_refl (self : TextToHawkinsDB B) : same_db self self.
Proof. reflexivity. Qed.

Lemma same_db_trans (s1 s2 s3 : TextToHawkinsDB B) :
  same_db s1 s2 -> same_db s2 s3 -> same_db s1 s3.
Proof. unfold same_db. intros E1 E2. rewrite E2. exact E1. Qed.

Lemma same_db_client_create (req : request) :
  respects same_db (client_create B req).
Proof.
  intros self. unfold client_create.
  destruct (chat_create B req (client (emit (EvChat req) self))) as [r o].
  reflexivity.
Qed.

Lemma same_db_logger_error (msg : string) : respects same_db (logger_error B msg).
Proof. intros self. reflexivity. Qed.

Hypothesis reads_pure : reads_preserve_store B.

Lemma same_db_list_entities : respects same_db (self_db_list_entities B).
Proof.
  intros self. unfold self_db_list_entities, same_db.
  pose proof (proj1 reads_pure (db (emit EvListEntities self))) as E.
  destruct (db_list_entities B (db (emit EvListEntities self))) as [r d].
  simpl in *. exact E.
Qed.

Lemma same_db_query_frames (entity_name : string) :
  respects same_db (self_db_query_frames B entity_name).
Proof.
  intros self. unfold self_db_query_frames, same_db.
  pose proof (proj2 reads_pure entity_name (db (emit (EvQueryFrames entity_name) self))) as E.
  destruct (db_query_frames B entity_name (db (emit (EvQueryFrames entity_name) self)))
    as [r d].
  simpl in *. exact E.
Qed.

Lemma same_db_build_context (entities context : list string) :
  respects same_db (build_context B entities context).
Proof.
  revert context.
  induction entities as [| entity_name rest IH]; intros context; simpl.
  - apply respects_ret. apply same_db_refl.
  - apply respects_bind; [apply same_db_trans | apply same_db_query_frames |].
    intros frames. destruct (truthy frames); [| apply IH].
    apply respects_bind; [apply same_db_trans | |].
    + apply respects_lift. apply same_db_refl.
    + intros block. apply IH.
Qed.

End StoreAttribute.

(** Splits a goal [respects same_db m] along the structure of [m]; the
    store's read calls are closed with the hypothesis [H]. *)
Ltac db_step H :=
  first
    [ apply respects_ret; [apply same_db_refl]
    | apply respects_lift; [apply same_db_refl]
    | apply same_db_client_create
    | apply same_db_logger_error
    | apply same_db_list_entities; exact H
    | apply same_db_query_frames; exact H
    | apply same_db_build_context; exact H
    | apply respects_bind; [apply same_db_trans | | intros ?]
    | apply respects_try_except; [apply same_db_trans | | intros ?] ].

Section Inversion.

Context {B : Backend}.

Lemma bind_Ok_inv {A C} (m : M B A) (k : A -> M B C) self c self' :
  bind m k self = (Ok c, self') ->
  exists a self1, m self = (Ok a, self1) /\ k a self1 = (Ok c, self').
Proof.
  unfold bind. destruct (m self) as [[a | e] self1]; intros H.
  - exists a, self1. split; [reflexivity | exact H].
  - discriminate H.
Qed.

Lemma ret_Ok_inv {A} (a c : A) (self self' : TextToHawkinsDB B) :
  ret a self = (Ok c, self') -> c = a.
Proof. unfold ret. intros H. injection H as <- _. reflexivity. Qed.

Lemma try_except_fst {A} (body : M B A) (handler : exn -> M B A) self :
  fst (try_except body handler self) =
  match body self with
  | (Ok a, _) => Ok a
  | (Raise e, self1) => fst (handler e self1)
  end.
Proof. unfold try_except. destruct (body self) as [[a | e] self1]; reflexivity. Qed.

End Inversion.

(** ** Construction *)

Section Construction.

Context (B : Backend).

(** C7. Constructing the component when no credential is available
    (the [api_key] argument is missing or empty, and so is the
    [OPENAI_API_KEY] variable of the process) raises
    [ValueError("OpenAI API key is required")]: nothing catches it and no
    object is returned. *)
Theorem init_without_credential
  (key : option string) (environ : gmap string string) :
  credential_absent key ->
  credential_absent (getenv environ OPENAI_API_KEY) ->
  __init__ B key environ = Raise (ValueError "OpenAI API key is required").
Proof.
  intros Hkey Henv. unfold __init__.
  destruct Hkey as [-> | ->]; simpl;
    destruct Henv as [-> | ->]; reflexivity.
Qed.

(** C8, as the code has it.  Importing the module sets [OPENAI_API_KEY]
    to the empty string, and the constructor takes an empty string for no
    credential: a construction that passes no [api_key] (or an empty one)
    in the environment the import left raises the missing-credential
    error, whatever the variable held before.  The constructor reads the
    variable when it is called: without an argument it raises that error
    exactly as long as the variable is unset or empty at that moment, and
    with a non-empty value it goes on to build the client and the store
    with that value. *)
Theorem init_after_import_reads_current_environment
  (environ environ_now : gmap string string) :
  getenv (import_module environ) OPENAI_API_KEY = Some EmptyString /\
  __init__ B None (import_module environ)
    = Raise (ValueError "OpenAI API key is required") /\
  __init__ B (Some EmptyString) (import_module environ)
    = Raise (ValueError "OpenAI API key is required") /\
  __init__ B None environ_now =
    match getenv environ_now OPENAI_API_KEY with
    | None => Raise (ValueError "OpenAI API key is required")
    | Some value =>
        if String.eqb value EmptyString then
          Raise (ValueError "OpenAI API key is required")
        else
          match new_client B value with
          | Raise e => Raise e
          | Ok c =>
              match new_db B "sqlite" with
              | Raise e => Raise e
              | Ok d => Ok (Self value c d [])
              end
          end
    end.
Proof.
  assert (E : getenv (import_module environ) OPENAI_API_KEY = Some EmptyString).
  { unfold getenv, import_module. apply lookup_insert_eq. }
  split; [exact E |].
  split; [unfold __init__; simpl; rewrite E; reflexivity |].
  split; [unfold __init__; simpl; rewrite E; reflexivity |].
  unfold __init__, or_. simpl.
  destruct (getenv environ_now OPENAI_API_KEY) as [value |]; simpl;
    [| reflexivity].
  destruct (String.eqb value EmptyString); reflexivity.
Qed.

End Construction.

(** ** Extraction *)

Section Extraction.

Context (B : Backend).

(** C1, as the code has it.  [text_to_json] hands back exactly what
    [json.loads] makes of the reply of the completion call, with no look
    at its keys, and raises what the call or [json.loads] raised. *)
Theorem text_to_json_returns_decoded_reply
  (text : string) (self : TextToHawkinsDB B) :
  fst (text_to_json B text self) =
  match chat_create B (extraction_request text) (client self) with
  | (Ok reply, _) => json_loads B reply
  | (Raise e, _) => Raise e
  end.
Proof.
  unfold text_to_json. rewrite try_except_fst.
  unfold text_to_json_body, bind, client_create, lift. simpl.
  destruct (chat_create B (extraction_request text) (client self)) as [[reply | e] o];
    simpl; [| reflexivity].
  destruct (json_loads B reply) as [v | e]; reflexivity.
Qed.

End Extraction.

(** C1, counterexample.  The client answers in the very format the
    instruction of [text_to_json] asks for, whose first key is [column]:
    the value returned for a non-empty text has no [category] key. *)
Lemma text_to_json_returns_record_without_category :
  ~ spec_extraction_guarantee Double.backend
      (Double.object [Ok (Some Double.reply_as_instructed)] [])
      "Python is a programming language.".
Proof.
  unfold spec_extraction_guarantee. intros H.
  assert (Hne : "Python is a programming language." <> EmptyString) by discriminate.
  specialize (H Hne). vm_compute in H. discriminate H.
Qed.

(** C8, counterexample.  The module is imported, then the process sets
    the variable (one assignment of the form of line 8): the construction
    without argument takes the fallback and returns an object. *)
Lemma fallback_succeeds_once_variable_is_set :
  __init__ Double.backend None
      (environ_after_import ∅ [(OPENAI_API_KEY, "sk-test")])
    = Ok (Double.object [] []) /\
  ~ spec_fallback_never_succeeds Double.backend ∅ [(OPENAI_API_KEY, "sk-test")].
Proof.
  assert (H : __init__ Double.backend None
                (environ_after_import ∅ [(OPENAI_API_KEY, "sk-test")])
              = Ok (Double.object [] [])) by (vm_compute; reflexivity).
  split; [exact H |].
  unfold spec_fallback_never_succeeds. rewrite H. discriminate.
Qed.

(** ** Errors at the operation boundary *)

Section Boundary.

Context (B : Backend).

Lemma call_fst (op : operation) (self : TextToHawkinsDB B) :
  fst (call B op self) =
  match try_block B op self with
  | (Ok v, _) => Ok v
  | (Raise e, _) => Ok (failure_envelope op e)
  end.
Proof.
  destruct op; simpl;
    unfold add_to_db, query_entity, query_by_text, list_all_entities;
    rewrite try_except_fst;
    match goal with |- context [match ?b with _ => _ end] => destruct b as [[v | e] self1] end;
    reflexivity.
Qed.

(** C3, as the code has it.  Each of the four envelope operations hands
    a value back whatever happens inside it: when its [try] block raises
    [e] the value is the failure envelope for [e], whose [success] is
    false, and otherwise it is the value of the block.  [text_to_json]
    is not one of them: what its [try] block raises, it raises again. *)
Theorem envelope_operations_catch_and_text_to_json_reraises
  (op : operation) (text : string) (self : TextToHawkinsDB B) :
  returns_normally (call B op) self /\
  match try_block B op self with
  | (Ok v, _) => fst (call B op self) = Ok v
  | (Raise e, _) =>
      fst (call B op self) = Ok (failure_envelope op e) /\
      get "success" (failure_envelope op e) = Some (PBool false) /\
      get "message" (failure_envelope op e) = Some (PStr (str e))
  end /\
  match text_to_json_body B text self with
  | (Ok v, _) => fst (text_to_json B text self) = Ok v
  | (Raise e, _) => fst (text_to_json B text self) = Raise e
  end.
Proof.
  split; [| split].
  - unfold returns_normally. rewrite call_fst.
    destruct (try_block B op self) as [[v | e] self1]; eauto.
  - rewrite call_fst.
    destruct (try_block B op self) as [[v | e] self1]; [reflexivity |].
    destruct op; repeat split; reflexivity.
  - unfold text_to_json. rewrite try_except_fst.
    destruct (text_to_json_body B text self) as [[v | e] self1]; reflexivity.
Qed.

End Boundary.

(** C3, counterexample.  With a client that reports a connection error,
    [text_to_json] raises that error to its caller: it returns no
    envelope. *)
Lemma text_to_json_error_escapes :
  fst (text_to_json Double.backend "Python is a programming language."
         (Double.object [] []))
    = Raise (Exn "APIConnectionError" "Connection error.") /\
  ~ returns_normally
      (text_to_json Double.backend "Python is a programming language.")
      (Double.object [] []).
Proof.
  split; [vm_compute; reflexivity |].
  intros [v Hv]. vm_compute in Hv. discriminate Hv.
Qed.

(** ** Running the calls to the collaborators *)

Section Runs.

Context (B : Backend).

Lemma list_entities_run (self : TextToHawkinsDB B) r d :
  db_list_entities B (db self) = (r, d) ->
  self_db_list_entities B self = (r, set_db B d (emit EvListEntities self)).
Proof. unfold self_db_list_entities. simpl. intros ->. reflexivity. Qed.

Lemma query_frames_run (entity_name : string) (self : TextToHawkinsDB B) r d :
  db_query_frames B entity_name (db self) = (r, d) ->
  self_db_query_frames B entity_name self
    = (r, set_db B d (emit (EvQueryFrames entity_name) self)).
Proof. unfold self_db_query_frames. simpl. intros ->. reflexivity. Qed.

Lemma client_create_run (req : request) (self : TextToHawkinsDB B) r o :
  chat_create B req (client self) = (r, o) ->
  client_create B req self = (r, set_client B o (emit (EvChat req) self)).
Proof. unfold client_create. simpl. intros ->. reflexivity. Qed.

Lemma no_frames_falsy (v : pyval) : no_frames v = true -> truthy v = false.
Proof.
  destruct v as [| b | z | s | l | d]; simpl; try discriminate.
  - destruct l; [reflexivity | discriminate].
  - destruct d; [reflexivity | discriminate].
Qed.

(** A frame query that comes back falsy makes [query_entity] answer
    "not found". *)
Lemma query_entity_falsy (entity_name : string) (self : TextToHawkinsDB B) frames d :
  db_query_frames B entity_name (db self) = (Ok frames, d) ->
  truthy frames = false ->
  query_entity B entity_name self
    = (Ok (entity_not_found entity_name),
       set_db B d (emit (EvQueryFrames entity_name) self)).
Proof.
  intros Hq Hf.
  unfold query_entity, try_except, query_entity_body, bind.
  rewrite (query_frames_run _ _ _ _ Hq), Hf. reflexivity.
Qed.

(** What a [try] block returns is a success envelope, but for the "not
    found" answer of [query_entity]. *)
Lemma try_block_Ok_shape (op : operation) (self self' : TextToHawkinsDB B) v :
  try_block B op self = (Ok v, self') ->
  get "success" v = Some (PBool true) \/
  exists entity_name, op = QueryEntity entity_name /\ v = entity_not_found entity_name.
Proof.
  destruct op as [text | entity_name | query_text |]; simpl; intros H.
  - unfold add_to_db_body in H.
    apply bind_Ok_inv in H as (json_data & s1 & _ & H).
    apply bind_Ok_inv in H as (dumped & s2 & _ & H).
    apply bind_Ok_inv in H as (u & s3 & _ & H).
    apply bind_Ok_inv in H as (result & s4 & _ & H).
    apply ret_Ok_inv in H. subst v. left. reflexivity.
  - unfold query_entity_body in H.
    apply bind_Ok_inv in H as (frames & s1 & _ & H).
    destruct (truthy frames); simpl in H; apply ret_Ok_inv in H; subst v.
    + left. reflexivity.
    + right. exists entity_name. split; reflexivity.
  - unfold query_by_text_body in H.
    apply bind_Ok_inv in H as (entities & s1 & _ & H).
    destruct entities as [| first others].
    + apply ret_Ok_inv in H. subst v. left. reflexivity.
    + apply bind_Ok_inv in H as (context & s2 & _ & H).
      apply bind_Ok_inv in H as (answer & s3 & _ & H).
      apply ret_Ok_inv in H. subst v. left. reflexivity.
  - unfold list_all_entities_body in H.
    apply bind_Ok_inv in H as (entities & s1 & _ & H).
    apply ret_Ok_inv in H. subst v. left. reflexivity.
Qed.

(** C4. Whatever operation is called and whatever it is called with, an
    envelope whose [success] is false has no payload (each payload key
    is null or missing), and its [message] is the text of the exception
    raised inside the operation, or the "No entity found" sentence of
    [query_entity]. *)
Theorem failure_envelope_has_no_payload
  (op : operation) (self : TextToHawkinsDB B) (v : pyval) :
  fst (call B op self) = Ok v ->
  get "success" v = Some (PBool false) ->
  payload_is_null v = true /\
  exists msg, get "message" v = Some (PStr msg) /\
    ((exists e, raised_in (try_block B op) self e /\ msg = str e) \/
     (exists entity_name, op = QueryEntity entity_name /\
        msg = "No entity found with name: " +:+ entity_name)).
Proof.
  intros Hv Hs. rewrite call_fst in Hv.
  destruct (try_block B op self) as [[v0 | e] self1] eqn:E.
  - injection Hv as ->.
    destruct (try_block_Ok_shape _ _ _ _ E) as [Ht | (entity_name & -> & ->)].
    + rewrite Ht in Hs. discriminate Hs.
    + split; [reflexivity |].
      eexists. split; [reflexivity |]. right. eauto.
  - injection Hv as <-.
    split; [destruct op; reflexivity |].
    exists (str e). split; [destruct op; reflexivity |].
    left. exists e. split; [exists self1; exact E | reflexivity].
Qed.

(** C5. When the store lists no entity, [query_by_text] returns at once:
    its envelope has [success] true, the message "Database is empty" and
    the fixed response; listing the entities is the only call it made,
    so the completion client was not called. *)
Theorem query_by_text_on_empty_store
  (query_text : string) (self : TextToHawkinsDB B) (d : Store B) :
  db_list_entities B (db self) = (Ok [], d) ->
  exists self',
    query_by_text B query_text self
      = (Ok (PDict [("success", PBool true);
                    ("message", PStr "Database is empty");
                    ("response", PStr "No information available in the database.")]),
         self') /\
    trace self' = trace self ++ [EvListEntities] /\
    client self' = client self.
Proof.
  intros Hl. eexists. split; [| split].
  - unfold query_by_text, try_except, query_by_text_body, bind.
    rewrite (list_entities_run _ _ _ Hl). reflexivity.
  - reflexivity.
  - reflexivity.
Qed.

(** C6. For a name absent from the store, [query_entity] raises nothing
    and returns the envelope with [success] false, the message
    "No entity found with name: " followed by the name, and null data. *)
Theorem query_entity_on_absent_name
  (entity_name : string) (self : TextToHawkinsDB B) :
  absent_from_store B entity_name (db self) = true ->
  fst (query_entity B entity_name self)
    = Ok (PDict [("success", PBool false);
                 ("message", PStr ("No entity found with name: " +:+ entity_name));
                 ("data", PNone)]).
Proof.
  unfold absent_from_store.
  destruct (db_query_frames B entity_name (db self)) as [[frames | e] d] eqn:Hq;
    [| discriminate].
  intros Hn. apply no_frames_falsy in Hn.
  rewrite (query_entity_falsy _ _ _ _ Hq Hn). reflexivity.
Qed.

(** C9. [query_entity] answers "No entity found" whenever the frame query
    comes back falsy, so two stores in which that happens (one that lists
    the name with zero frames, one that does not know it) get the same
    envelope. *)
Theorem query_entity_cannot_tell_empty_from_missing
  (entity_name : string) (self1 self2 : TextToHawkinsDB B)
  (frames1 frames2 : pyval) (d1 d2 : Store B) :
  db_query_frames B entity_name (db self1) = (Ok frames1, d1) ->
  truthy frames1 = false ->
  db_query_frames B entity_name (db self2) = (Ok frames2, d2) ->
  truthy frames2 = false ->
  fst (query_entity B entity_name self1)
    = Ok (PDict [("success", PBool false);
                 ("message", PStr ("No entity found with name: " +:+ entity_name));
                 ("data", PNone)]) /\
  fst (query_entity B entity_name self2) = fst (query_entity B entity_name self1).
Proof.
  intros Hq1 Hf1 Hq2 Hf2.
  rewrite (query_entity_falsy _ _ _ _ Hq1 Hf1), (query_entity_falsy _ _ _ _ Hq2 Hf2).
  split; reflexivity.
Qed.

End Runs.

(** ** The read path *)

Section ReadPath.

Context (B : Backend).

Lemma read_path_adds_no_write (op : operation) :
  is_read_path op = true -> respects (extends not_a_write) (call B op).
Proof.
  destruct op as [text | entity_name | query_text |]; simpl; intros Hop;
    [discriminate Hop | | |].
  - unfold query_entity, query_entity_body.
    trace_step; [| repeat trace_step].
    trace_step; [trace_step |].
    match goal with |- context [truthy ?f] => destruct (negb (truthy f)) end;
      trace_step.
  - unfold query_by_text, query_by_text_body.
    trace_step; [| repeat trace_step].
    trace_step; [trace_step |].
    match goal with |- context [match ?l with [] => _ | _ :: _ => _ end] =>
      destruct l as [| first others] end; [trace_step |].
    trace_step; [apply build_context_extends; reflexivity |].
    repeat trace_step.
  - unfold list_all_entities, list_all_entities_body.
    repeat trace_step.
Qed.

Lemma read_path_keeps_db (op : operation) :
  reads_preserve_store B ->
  is_read_path op = true -> respects same_db (call B op).
Proof.
  intros Hreads.
  destruct op as [text | entity_name | query_text |]; simpl; intros Hop;
    [discriminate Hop | | |].
  - unfold query_entity, query_entity_body.
    db_step Hreads; [| repeat db_step Hreads].
    db_step Hreads; [db_step Hreads |].
    match goal with |- context [truthy ?f] => destruct (negb (truthy f)) end;
      db_step Hreads.
  - unfold query_by_text, query_by_text_body.
    db_step Hreads; [| repeat db_step Hreads].
    db_step Hreads; [db_step Hreads |].
    match goal with |- context [match ?l with [] => _ | _ :: _ => _ end] =>
      destruct l as [| first others] end; [db_step Hreads |].
    repeat db_step Hreads.
  - unfold list_all_entities, list_all_entities_body.
    repeat db_step Hreads.
Qed.

(** C10. [query_entity], [query_by_text] and [list_all_entities] never
    call [add_entity]: the events they add to the trace contain no write.
    With a store whose two read calls leave it as it was, the store after
    the operation is the store before it. *)
Theorem read_path_leaves_store (op : operation) (self : TextToHawkinsDB B) :
  is_read_path op = true ->
  extends not_a_write self (snd (call B op self)) /\
  (reads_preserve_store B -> db (snd (call B op self)) = db self).
Proof.
  intros Hop. split.
  - apply read_path_adds_no_write. exact Hop.
  - intros Hreads. apply (read_path_keeps_db op Hreads Hop).
Qed.

End ReadPath.

(** ** The context handed to the answering model *)

Section AnswerContext.

Context (B : Backend).

Lemma filter_chat_of_non_chat (evs : list event) :
  forallb (fun ev => negb (is_chat ev)) evs = true -> List.filter is_chat evs = [].
Proof.
  induction evs as [| ev rest IH]; simpl; [reflexivity |].
  destruct (is_chat ev); simpl; [discriminate | exact IH].
Qed.

Lemma filter_chat_queries (names : list string) :
  List.filter is_chat (map EvQueryFrames names) = [].
Proof. induction names as [| n rest IH]; simpl; [reflexivity | exact IH]. Qed.

(** The loop of [query_by_text] against its description: fetch the
    frames, keep the truthy ones, serialise them, append the blocks. *)
Lemma build_context_run (names context : list string)
  (self : TextToHawkinsDB B) (d : Store B) :
  db self = d ->
  match fetch_frames B names d with
  | (Ok frs, d2) =>
      match serialize_all B (List.filter truthy frs) with
      | Ok blocks =>
          build_context B names context self
            = (Ok (context ++ blocks),
               Self (api_key self) (client self) d2
                    (trace self ++ map EvQueryFrames names))
      | Raise _ => exists e self', build_context B names context self = (Raise e, self')
      end
  | (Raise _, _) => exists e self', build_context B names context self = (Raise e, self')
  end.
Proof.
  revert context self d.
  induction names as [| entity_name rest IH]; intros context self d Hd; simpl.
  - unfold ret. rewrite !app_nil_r. subst d. destruct self; reflexivity.
  - subst d. unfold bind.
    destruct (db_query_frames B entity_name (db self)) as [[frames | e] d1] eqn:Hq;
      rewrite (query_frames_run _ _ _ _ _ Hq); [| eauto].
    set (self1 := set_db B d1 (emit (EvQueryFrames entity_name) self)).
    assert (Hd1 : db self1 = d1) by reflexivity.
    destruct (truthy frames) eqn:Ht.
    + unfold lift.
      destruct (json_dumps B frames) as [block | e] eqn:Hj.
      * specialize (IH (context ++ [block]) self1 d1 Hd1).
        destruct (fetch_frames B rest d1) as [[more | e] d2]; [| exact IH].
        simpl. rewrite Ht. simpl. rewrite Hj.
        destruct (serialize_all B (List.filter truthy more)) as [blocks | e];
          [| exact IH].
        rewrite IH. subst self1. simpl.
        rewrite <- !app_assoc. reflexivity.
      * destruct (fetch_frames B rest d1) as [[more | e'] d2]; [| eauto].
        simpl. rewrite Ht. simpl. rewrite Hj. eauto.
    + specialize (IH context self1 d1 Hd1).
      destruct (fetch_frames B rest d1) as [[more | e] d2]; [| exact IH].
      simpl. rewrite Ht.
      destruct (serialize_all B (List.filter truthy more)) as [blocks | e];
        [| exact IH].
      rewrite IH. subst self1. simpl.
      rewrite <- !app_assoc. reflexivity.
Qed.

(** C2. When the store lists at least one entity, the completion client
    is called by [query_by_text] at most once, and only if the frame
    queries for the first five listed entities and the serialisation of
    the non-empty frames all went through.  The request then carries a
    single message, of role [system], whose content is the prompt with
    the blocks joined by one space in the place of the context and the
    question in its own place, both as they are. *)
Theorem query_by_text_prompt
  (query_text : string) (self : TextToHawkinsDB B)
  (entities : list string) (d1 : Store B) :
  db_list_entities B (db self) = (Ok entities, d1) ->
  entities <> [] ->
  exists evs,
    trace (snd (query_by_text B query_text self)) = trace self ++ evs /\
    List.filter is_chat evs =
      match fetch_frames B (firstn 5 entities) d1 with
      | (Ok frs, _) =>
          match serialize_all B (List.filter truthy frs) with
          | Ok blocks =>
              [EvChat {| model := "gpt4o";
                         messages :=
                           [Message "system"
                              (answer_prompt_head +:+ String.concat " " blocks
                               +:+ answer_prompt_mid +:+ query_text
                               +:+ answer_prompt_tail)];
                         temperature := "0.3";
                         max_tokens := Some 500%Z;
                         response_format := None |}]
          | Raise _ => []
          end
      | (Raise _, _) => []
      end.
Proof.
  intros Hl Hne.
  destruct entities as [| first others]; [contradiction |].
  set (names := firstn 5 (first :: others)).
  set (self1 := set_db B d1 (emit EvListEntities self)).
  pose proof (build_context_run names [] self1 d1 eq_refl) as Hrun.
  assert (Hbody : query_by_text_body B query_text self =
            bind (build_context B names [])
              (fun context =>
                 bind (client_create B (answer_request context query_text))
                   (fun answer => ret (query_processed answer))) self1).
  { unfold query_by_text_body. unfold bind at 1.
    rewrite (list_entities_run _ _ _ _ Hl). reflexivity. }
  unfold query_by_text, try_except. rewrite Hbody. clear Hbody.
  assert (Hfail : forall e self2,
            build_context B names [] self1 = (Raise e, self2) ->
            exists evs,
              trace (emit (EvLog "ERROR" ("Error processing query: " +:+ str e)) self2)
                = trace self ++ evs /\ List.filter is_chat evs = []).
  { intros e self2 Hb.
    pose proof (build_context_extends B (fun ev => negb (is_chat ev)) names []
                  (fun _ => eq_refl) self1) as (evs & Ht & Hf).
    rewrite Hb in Ht. simpl in Ht.
    exists (EvListEntities :: evs ++ [EvLog "ERROR" ("Error processing query: " +:+ str e)]).
    split.
    - simpl. rewrite Ht. rewrite <- !app_assoc. reflexivity.
    - simpl. rewrite List.filter_app, (filter_chat_of_non_chat _ Hf). reflexivity. }
  destruct (fetch_frames B names d1) as [[frs | e0] d2].
  - destruct (serialize_all B (List.filter truthy frs)) as [blocks | e0].
    + unfold bind at 1. rewrite Hrun. simpl app at 1.
      unfold bind at 1.
      match goal with |- context [client_create B ?r ?s] =>
        destruct (chat_create B r (client s)) as [[answer | e] o] eqn:Hc;
        rewrite (client_create_run _ _ _ _ _ Hc)
      end.
      * eexists. split.
        -- simpl. rewrite <- !app_assoc. reflexivity.
        -- simpl. rewrite List.filter_app, filter_chat_queries. reflexivity.
      * eexists. split.
        -- simpl. rewrite <- !app_assoc. reflexivity.
        -- simpl. rewrite List.filter_app, filter_chat_queries. reflexivity.
    + destruct Hrun as (e & self2 & Hb).
      unfold bind at 1. rewrite Hb. simpl. apply (Hfail e self2 Hb).
  - destruct Hrun as (e & self2 & Hb).
    unfold bind at 1. rewrite Hb. simpl. apply (Hfail e self2 Hb).
Qed.

End AnswerContext.

(** * The component at work on the doubles *)

(** An environment that holds other variables and no key, no argument. *)
Lemma init_without_credential_witness :
  credential_absent None /\
  credential_absent (getenv {["HOME" := "/root"]} OPENAI_API_KEY) /\
  __init__ Double.backend None {["HOME" := "/root"]}
    = Raise (ValueError "OpenAI API key is required").
Proof.
  assert (H1 : credential_absent None) by (left; reflexivity).
  assert (H2 : credential_absent (getenv {["HOME" := "/root"]} OPENAI_API_KEY))
    by (left; vm_compute; reflexivity).
  split; [exact H1 | split; [exact H2 |]].
  apply (init_without_credential Double.backend None {["HOME" := "/root"]} H1 H2).
Defined.

(** A failed ingestion: the client is unreachable. *)
Lemma failure_envelope_has_no_payload_witness :
  payload_is_null (add_to_db_failed (Exn "APIConnectionError" "Connection error.")) = true /\
  exists msg,
    get "message" (add_to_db_failed (Exn "APIConnectionError" "Connection error."))
      = Some (PStr msg) /\
    ((exists e,
        raised_in (try_block Double.backend (AddToDb "Python is a programming language."))
          (Double.object [] []) e /\ msg = str e) \/
     (exists entity_name,
        AddToDb "Python is a programming language." = QueryEntity entity_name /\
        msg = "No entity found with name: " +:+ entity_name)).
Proof.
  apply (failure_envelope_has_no_payload Double.backend
           (AddToDb "Python is a programming language.") (Double.object [] [])).
  - vm_compute. reflexivity.
  - vm_compute. reflexivity.
Defined.

(** An empty store and a client that would have answered. *)
Lemma query_by_text_on_empty_store_witness :
  exists self',
    query_by_text Double.backend "What is Python?"
      (Double.object [Ok (Some "It is a language.")] [])
      = (Ok (PDict [("success", PBool true);
                    ("message", PStr "Database is empty");
                    ("response", PStr "No information available in the database.")]),
         self') /\
    trace self' = [EvListEntities] /\
    client self' = [Ok (Some "It is a language.")].
Proof.
  apply (query_by_text_on_empty_store Double.backend "What is Python?"
           (Double.object [Ok (Some "It is a language.")] []) []).
  vm_compute. reflexivity.
Defined.

(** A store that knows [Python_Language] and is asked for [Ghost]. *)
Lemma query_entity_on_absent_name_witness :
  absent_from_store Double.backend "Ghost" [("Python_Language", Double.python_frames)] = true /\
  fst (query_entity Double.backend "Ghost"
         (Double.object [] [("Python_Language", Double.python_frames)]))
    = Ok (PDict [("success", PBool false);
                 ("message", PStr "No entity found with name: Ghost");
                 ("data", PNone)]).
Proof.
  assert (H : absent_from_store Double.backend "Ghost"
                [("Python_Language", Double.python_frames)] = true)
    by (vm_compute; reflexivity).
  split; [exact H |].
  apply (query_entity_on_absent_name Double.backend "Ghost"
           (Double.object [] [("Python_Language", Double.python_frames)]) H).
Defined.

(** [Ghost] listed with an empty list of frames, against a store that
    does not list it. *)
Lemma query_entity_cannot_tell_empty_from_missing_witness :
  fst (Double.list_entities [("Ghost", PList [])]) = Ok ["Ghost"] /\
  fst (Double.list_entities []) = Ok [] /\
  fst (query_entity Double.backend "Ghost" (Double.object [] [("Ghost", PList [])]))
    = Ok (PDict [("success", PBool false);
                 ("message", PStr "No entity found with name: Ghost");
                 ("data", PNone)]) /\
  fst (query_entity Double.backend "Ghost" (Double.object [] []))
    = fst (query_entity Double.backend "Ghost" (Double.object [] [("Ghost", PList [])])).
Proof.
  split; [reflexivity | split; [reflexivity |]].
  apply (query_entity_cannot_tell_empty_from_missing Double.backend "Ghost"
           (Double.object [] [("Ghost", PList [])]) (Double.object [] [])
           (PList []) (PDict []) [("Ghost", PList [])] []).
  - vm_compute. reflexivity.
  - reflexivity.
  - vm_compute. reflexivity.
  - reflexivity.
Defined.

(** A question asked of a store of six entities. *)
Lemma read_path_leaves_store_witness :
  is_read_path (QueryByText "What is A?") = true /\
  reads_preserve_store Double.backend /\
  extends not_a_write
    (Double.object [Ok (Some "a")] Double.six_entities)
    (snd (call Double.backend (QueryByText "What is A?")
            (Double.object [Ok (Some "a")] Double.six_entities))) /\
  db (snd (call Double.backend (QueryByText "What is A?")
             (Double.object [Ok (Some "a")] Double.six_entities)))
    = Double.six_entities.
Proof.
  assert (Hreads : reads_preserve_store Double.backend).
  { split; [reflexivity |].
    intros entity_name d. simpl. unfold Double.query_frames.
    destruct (assoc entity_name d); reflexivity. }
  destruct (read_path_leaves_store Double.backend (QueryByText "What is A?")
              (Double.object [Ok (Some "a")] Double.six_entities) eq_refl) as [Hw Hdb].
  split; [reflexivity | split; [exact Hreads | split; [exact Hw | exact (Hdb Hreads)]]].
Defined.

(** The same question: [B] has no frames and is left out, [F] is the
    sixth entity and is not looked at. *)
Lemma query_by_text_prompt_witness :
  exists evs,
    trace (snd (query_by_text Double.backend "What is A?"
                  (Double.object [Ok (Some "a")] Double.six_entities))) = evs /\
    List.filter is_chat evs =
      [EvChat {| model := "gpt4o";
                 messages :=
                   [Message "system"
                      (answer_prompt_head
                       +:+ String.concat " "
                             [Double.dumps_at 0 (PDict [("Semantic", PStr "a")]);
                              Double.dumps_at 0 (PList [PInt 3]);
                              Double.dumps_at 0 (PDict [("Episodic", PStr "d")]);
                              Double.dumps_at 0 (PDict [("Procedural", PStr "e")])]
                       +:+ answer_prompt_mid +:+ "What is A?"
                       +:+ answer_prompt_tail)];
                 temperature := "0.3";
                 max_tokens := Some 500%Z;
                 response_format := None |}].
Proof.
  destruct (query_by_text_prompt Double.backend "What is A?"
              (Double.object [Ok (Some "a")] Double.six_entities)
              (map fst Double.six_entities) Double.six_entities)
    as (evs & Ht & Hf).
  - reflexivity.
  - discriminate.
  - exists evs. split; [exact Ht | exact Hf].
Defined.

(** The two scenarios of the specification: a fresh store lists nothing;
    a record that was ingested is found again under its name. *)
Example list_all_entities_on_fresh_store :
  fst (list_all_entities Double.backend (Double.object [] []))
    = Ok (PDict [("success", PBool true);
                 ("message", PStr "Entities retrieved successfully");
                 ("entities", PList [])]).
Proof. vm_compute. reflexivity. Qed.

Example ingest_then_query_entity :
  let self := Double.object [Ok (Some Double.reply_as_instructed)] [] in
  let self' := snd (add_to_db Double.backend "Python is a programming language." self) in
  fst (query_entity Double.backend "Python_Language" self')
    = Ok (PDict [("success", PBool true);
                 ("message", PStr "Entity found");
                 ("data", PDict [("Semantic", Double.record_as_instructed)])]).
Proof. vm_compute. reflexivity. Qed.

(** A reply that is no JSON at all ends in a failure envelope, and the
    store is not written to. *)
Example add_to_db_on_undecodable_reply :
  let self := Double.object [Ok (Some "not json")] [] in
  fst (add_to_db Double.backend "Python is a programming language." self)
    = Ok (PDict [("success", PBool false);
                 ("message", PStr "Expecting value: line 1 column 1 (char 0)");
                 ("entity_data", PNone);
                 ("db_result", PNone)]) /\
  db (snd (add_to_db Double.backend "Python is a programming language." self)) = [].
Proof. vm_compute. split; reflexivity. Qed.

(** * Further properties of the code *)

(** ** Construction, when it succeeds *)

Section ConstructionMore.

Context (B : Backend).

(** An object that was constructed holds a non-empty credential: the
    [api_key] argument, or the variable of the environment if the argument
    was missing or empty; and nothing has been called on it yet. *)
Theorem init_success_inversion
  (key : option string) (environ : gmap string string) (self : TextToHawkinsDB B) :
  __init__ B key environ = Ok self ->
  api_key self <> EmptyString /\
  trace self = [] /\
  (key = Some (api_key self) \/
   (credential_absent key /\
    getenv environ OPENAI_API_KEY = Some (api_key self))).
Proof.
  unfold __init__, or_.
  destruct key as [k |]; simpl.
  - destruct (String.eqb k EmptyString) eqn:Ek; simpl.
    + apply String.eqb_eq in Ek. subst k.
      destruct (getenv environ OPENAI_API_KEY) as [v |] eqn:Ev; simpl;
        [| discriminate].
      destruct (String.eqb v EmptyString) eqn:Evv; simpl; [discriminate |].
      destruct (new_client B v) as [c | e]; [| discriminate].
      destruct (new_db B "sqlite") as [d | e]; [| discriminate].
      intros H. injection H as <-. simpl.
      apply String.eqb_neq in Evv.
      split; [exact Evv | split; [reflexivity |]].
      right. split; [right; reflexivity | reflexivity].
    + rewrite Ek. simpl.
      destruct (new_client B k) as [c | e]; [| discriminate].
      destruct (new_db B "sqlite") as [d | e]; [| discriminate].
      intros H. injection H as <-. simpl.
      apply String.eqb_neq in Ek.
      split; [exact Ek | split; [reflexivity |]]. left. reflexivity.
  - destruct (getenv environ OPENAI_API_KEY) as [v |] eqn:Ev; simpl;
      [| discriminate].
    destruct (String.eqb v EmptyString) eqn:Evv; simpl; [discriminate |].
    destruct (new_client B v) as [c | e]; [| discriminate].
    destruct (new_db B "sqlite") as [d | e]; [| discriminate].
    intros H. injection H as <-. simpl.
    apply String.eqb_neq in Evv.
    split; [exact Evv | split; [reflexivity |]].
    right. split; [left; reflexivity | reflexivity].
Qed.

(** A non-empty [api_key] argument decides the construction alone: the
    environment is not consulted. *)
Theorem init_argument_wins
  (key : string) (environ environ' : gmap string string) :
  key <> EmptyString ->
  __init__ B (Some key) environ = __init__ B (Some key) environ'.
Proof.
  intros Hk. apply String.eqb_neq in Hk.
  unfold __init__, or_. simpl. rewrite Hk. reflexivity.
Qed.

(** A missing or empty [api_key] argument leaves the construction to the
    variable of the environment: an empty string counts as no argument. *)
Theorem init_empty_argument_is_no_argument
  (key : option string) (environ : gmap string string) :
  credential_absent key ->
  __init__ B key environ = __init__ B None environ.
Proof. intros [-> | ->]; reflexivity. Qed.

End ConstructionMore.

(** ** What each method does to the object *)

Section Effects.

Context (B : Backend).

Lemma new_events_app (self self' : TextToHawkinsDB B) (evs : list event) :
  trace self' = trace self ++ evs -> new_events self self' = evs.
Proof.
  unfold new_events. intros ->.
  induction (trace self) as [| ev rest IH]; simpl; [reflexivity | exact IH].
Qed.

Lemma text_to_json_run (text : string) (self : TextToHawkinsDB B) :
  text_to_json B text self =
  match decoded_reply B text self with
  | Ok v => (Ok v, after_extraction_request B text self)
  | Raise e =>
      (Raise e,
       emit (EvLog "ERROR" ("Error converting text to JSON: " +:+ str e))
         (after_extraction_request B text self))
  end.
Proof.
  unfold text_to_json, try_except, text_to_json_body, bind,
    decoded_reply, after_extraction_request.
  destruct (chat_create B (extraction_request text) (client self))
    as [[reply | e] o] eqn:Hc;
    rewrite (client_create_run _ _ _ _ _ Hc); simpl; [| reflexivity].
  unfold lift. destruct (json_loads B reply) as [v | e]; reflexivity.
Qed.

(** [text_to_json] sends one request, the instruction as the system
    message and the text as the user message, in JSON mode; it logs one
    error line if it raises and nothing otherwise; it never touches the
    store nor the credential. *)
Theorem text_to_json_effects (text : string) (self : TextToHawkinsDB B) :
  let r := fst (text_to_json B text self) in
  let self' := snd (text_to_json B text self) in
  new_events self self' =
    EvChat {| model := "gpt-3.5-turbo";
              messages := [Message "system" extraction_prompt; Message "user" text];
              temperature := "0.3";
              max_tokens := None;
              response_format := Some "json_object" |}
    :: match r with
       | Ok _ => []
       | Raise e => [EvLog "ERROR" ("Error converting text to JSON: " +:+ str e)]
       end /\
  db self' = db self /\
  api_key self' = api_key self.
Proof.
  simpl. rewrite text_to_json_run.
  destruct (decoded_reply B text self) as [v | e]; simpl.
  - split; [| split; reflexivity].
    apply new_events_app. reflexivity.
  - split; [| split; reflexivity].
    apply new_events_app. simpl. rewrite <- app_assoc. reflexivity.
Qed.

End Effects.

(** ** Ingestion *)

Section Ingestion.

Context (B : Backend).

Lemma add_to_db_run (text : string) (self : TextToHawkinsDB B) :
  add_to_db B text self =
  match decoded_reply B text self with
  | Raise e =>
      (Ok (add_to_db_failed e),
       emit (EvLog "ERROR" ("Error adding to database: " +:+ str e))
         (emit (EvLog "ERROR" ("Error converting text to JSON: " +:+ str e))
            (after_extraction_request B text self)))
  | Ok json_data =>
      match json_dumps B json_data with
      | Raise e =>
          (Ok (add_to_db_failed e),
           emit (EvLog "ERROR" ("Error adding to database: " +:+ str e))
             (after_extraction_request B text self))
      | Ok dumped =>
          match db_add_entity B json_data (db self) with
          | (Ok result, d) =>
              (Ok (add_to_db_ok json_data result),
               set_db B d
                 (emit (EvAddEntity json_data)
                    (emit (EvLog "INFO" ("Converted JSON: " +:+ dumped))
                       (after_extraction_request B text self))))
          | (Raise e, d) =>
              (Ok (add_to_db_failed e),
               emit (EvLog "ERROR" ("Error adding to database: " +:+ str e))
                 (set_db B d
                    (emit (EvAddEntity json_data)
                       (emit (EvLog "INFO" ("Converted JSON: " +:+ dumped))
                          (after_extraction_request B text self)))))
          end
      end
  end.
Proof.
  unfold add_to_db, try_except, add_to_db_body.
  unfold bind at 1. rewrite text_to_json_run.
  destruct (decoded_reply B text self) as [json_data | e]; [| reflexivity].
  unfold bind, lift.
  destruct (json_dumps B json_data) as [dumped | e]; [| reflexivity].
  unfold logger_info, self_db_add_entity. simpl.
  destruct (db_add_entity B json_data (db self)) as [[result | e] d]; reflexivity.
Qed.

(** The whole write path when nothing fails: the envelope echoes the
    decoded record and the store's own result, the store is left as
    [add_entity] left it, and the calls are the request, the log line
    with the serialised record, and the write of that same record. *)
Theorem add_to_db_success
  (text : string) (self : TextToHawkinsDB B)
  (json_data result : pyval) (dumped : string) (d : Store B) :
  decoded_reply B text self = Ok json_data ->
  json_dumps B json_data = Ok dumped ->
  db_add_entity B json_data (db self) = (Ok result, d) ->
  fst (add_to_db B text self)
    = Ok (PDict [("success", PBool true);
                 ("message", PStr "Successfully added to database");
                 ("entity_data", json_data);
                 ("db_result", result)]) /\
  db (snd (add_to_db B text self)) = d /\
  new_events self (snd (add_to_db B text self))
    = [EvChat (extraction_request text);
       EvLog "INFO" ("Converted JSON: " +:+ dumped);
       EvAddEntity json_data].
Proof.
  intros Hr Hj Ha. rewrite add_to_db_run, Hr, Hj, Ha. simpl.
  split; [reflexivity | split; [reflexivity |]].
  apply new_events_app. simpl. rewrite <- !app_assoc. reflexivity.
Qed.

(** [add_to_db] sends exactly one request, whatever happens.  It calls
    [add_entity] at most once, with the decoded record and nothing else,
    and only after both the extraction and the serialisation for the log
    line went through; otherwise the store is not called and keeps its
    state. *)
Theorem add_to_db_write_discipline (text : string) (self : TextToHawkinsDB B) :
  let evs := new_events self (snd (add_to_db B text self)) in
  List.filter is_chat evs = [EvChat (extraction_request text)] /\
  match decoded_reply B text self with
  | Ok json_data =>
      match json_dumps B json_data with
      | Ok _ => List.filter is_store_event evs = [EvAddEntity json_data]
      | Raise _ =>
          List.filter is_store_event evs = [] /\
          db (snd (add_to_db B text self)) = db self
      end
  | Raise _ =>
      List.filter is_store_event evs = [] /\
      db (snd (add_to_db B text self)) = db self
  end.
Proof.
  simpl. rewrite add_to_db_run.
  destruct (decoded_reply B text self) as [json_data | e].
  - destruct (json_dumps B json_data) as [dumped | e].
    + destruct (db_add_entity B json_data (db self)) as [[result | e] d]; simpl.
      * erewrite new_events_app
          by (simpl; rewrite <- !app_assoc; reflexivity).
        split; reflexivity.
      * erewrite new_events_app
          by (simpl; rewrite <- !app_assoc; reflexivity).
        split; reflexivity.
    + simpl.
      erewrite new_events_app by (simpl; rewrite <- !app_assoc; reflexivity).
      repeat split; reflexivity.
  - simpl.
    erewrite new_events_app by (simpl; rewrite <- !app_assoc; reflexivity).
    repeat split; reflexivity.
Qed.

(** An extraction that fails is logged twice, by [text_to_json] and by
    [add_to_db], with the same text, and reported once, in the envelope. *)
Theorem add_to_db_extraction_error_logged_twice
  (text : string) (self : TextToHawkinsDB B) (e : exn) :
  decoded_reply B text self = Raise e ->
  fst (add_to_db B text self)
    = Ok (PDict [("success", PBool false);
                 ("message", PStr (str e));
                 ("entity_data", PNone);
                 ("db_result", PNone)]) /\
  new_events self (snd (add_to_db B text self))
    = [EvChat (extraction_request text);
       EvLog "ERROR" ("Error converting text to JSON: " +:+ str e);
       EvLog "ERROR" ("Error adding to database: " +:+ str e)].
Proof.
  intros Hr. rewrite add_to_db_run, Hr. simpl.
  split; [reflexivity |].
  apply new_events_app. simpl. rewrite <- !app_assoc. reflexivity.
Qed.

(** When the store refuses the record, the envelope reports the store's
    error and drops the record that was extracted; what the failed call
    did to the store stays. *)
Theorem add_to_db_store_rejects
  (text : string) (self : TextToHawkinsDB B)
  (json_data : pyval) (dumped : string) (e : exn) (d : Store B) :
  decoded_reply B text self = Ok json_data ->
  json_dumps B json_data = Ok dumped ->
  db_add_entity B json_data (db self) = (Raise e, d) ->
  fst (add_to_db B text self)
    = Ok (PDict [("success", PBool false);
                 ("message", PStr (str e));
                 ("entity_data", PNone);
                 ("db_result", PNone)]) /\
  db (snd (add_to_db B text self)) = d /\
  new_events self (snd (add_to_db B text self))
    = [EvChat (extraction_request text);
       EvLog "INFO" ("Converted JSON: " +:+ dumped);
       EvAddEntity json_data;
       EvLog "ERROR" ("Error adding to database: " +:+ str e)].
Proof.
  intros Hr Hj Ha. rewrite add_to_db_run, Hr, Hj, Ha. simpl.
  split; [reflexivity | split; [reflexivity |]].
  apply new_events_app. simpl. rewrite <- !app_assoc. reflexivity.
Qed.

Lemma add_to_db_trace (text : string) (self : TextToHawkinsDB B) :
  exists evs,
    trace (snd (add_to_db B text self)) = trace self ++ evs /\
    List.filter is_chat evs = [EvChat (extraction_request text)].
Proof.
  rewrite add_to_db_run.
  destruct (decoded_reply B text self) as [json_data | e].
  - destruct (json_dumps B json_data) as [dumped | e].
    + destruct (db_add_entity B json_data (db self)) as [[result | e] d];
        eexists; (split; [simpl; rewrite <- !app_assoc; reflexivity | reflexivity]).
    + eexists. split; [simpl; rewrite <- !app_assoc; reflexivity | reflexivity].
  - eexists. split; [simpl; rewrite <- !app_assoc; reflexivity | reflexivity].
Qed.

(** Nothing is remembered between calls: adding the same text twice
    sends the same request twice. *)
Theorem add_to_db_twice_asks_twice (text : string) (self : TextToHawkinsDB B) :
  let self1 := snd (add_to_db B text self) in
  let self2 := snd (add_to_db B text self1) in
  List.filter is_chat (new_events self self2)
    = [EvChat (extraction_request text); EvChat (extraction_request text)].
Proof.
  simpl.
  destruct (add_to_db_trace text self) as (evs1 & E1 & F1).
  destruct (add_to_db_trace text (snd (add_to_db B text self))) as (evs2 & E2 & F2).
  rewrite (new_events_app B self _ (evs1 ++ evs2))
    by (rewrite E2, E1, <- app_assoc; reflexivity).
  rewrite List.filter_app, F1, F2. reflexivity.
Qed.

End Ingestion.

(** ** Lookup and listing *)

Section Lookup.

Context (B : Backend).

Lemma query_entity_run (entity_name : string) (self : TextToHawkinsDB B) :
  query_entity B entity_name self =
  match db_query_frames B entity_name (db self) with
  | (Ok frames, d) =>
      (Ok (if truthy frames then entity_found frames
           else entity_not_found entity_name),
       set_db B d (emit (EvQueryFrames entity_name) self))
  | (Raise e, d) =>
      (Ok (query_entity_failed e),
       emit (EvLog "ERROR" ("Error querying entity: " +:+ str e))
         (set_db B d (emit (EvQueryFrames entity_name) self)))
  end.
Proof.
  unfold query_entity, try_except, query_entity_body, bind.
  destruct (db_query_frames B entity_name (db self)) as [[frames | e] d] eqn:Hq;
    rewrite (query_frames_run _ _ _ _ _ Hq); [| reflexivity].
  destruct (truthy frames); reflexivity.
Qed.

Lemma list_all_entities_run (self : TextToHawkinsDB B) :
  list_all_entities B self =
  match db_list_entities B (db self) with
  | (Ok entities, d) =>
      (Ok (entities_retrieved entities), set_db B d (emit EvListEntities self))
  | (Raise e, d) =>
      (Ok (list_all_entities_failed e),
       emit (EvLog "ERROR" ("Error listing entities: " +:+ str e))
         (set_db B d (emit EvListEntities self)))
  end.
Proof.
  unfold list_all_entities, try_except, list_all_entities_body, bind.
  destruct (db_list_entities B (db self)) as [[entities | e] d] eqn:Hl;
    rewrite (list_entities_run _ _ _ _ Hl); reflexivity.
Qed.

(** When the frame query answers, the [success] flag of [query_entity]
    is the truth value of the frames, and [data] is the frames as the
    store gave them when they are truthy, null otherwise; the frame
    query is the only call made. *)
Theorem query_entity_reports_frames
  (entity_name : string) (self : TextToHawkinsDB B) (frames : pyval) (d : Store B) :
  db_query_frames B entity_name (db self) = (Ok frames, d) ->
  let v := fst (query_entity B entity_name self) in
  (exists env, v = Ok env /\
     get "success" env = Some (PBool (truthy frames)) /\
     get "data" env = Some (if truthy frames then frames else PNone)) /\
  new_events self (snd (query_entity B entity_name self))
    = [EvQueryFrames entity_name].
Proof.
  intros Hq. simpl. rewrite query_entity_run, Hq. simpl. split.
  - eexists. split; [reflexivity |].
    destruct (truthy frames); split; reflexivity.
  - apply new_events_app. reflexivity.
Qed.

(** Looking an entity up and listing the entities never call the
    completion client: no request in the trace, and the client is left
    as it was, whatever the store does. *)
Theorem lookups_never_call_the_model
  (entity_name : string) (self : TextToHawkinsDB B) :
  (client (snd (query_entity B entity_name self)) = client self /\
   List.filter is_chat (new_events self (snd (query_entity B entity_name self))) = []) /\
  (client (snd (list_all_entities B self)) = client self /\
   List.filter is_chat (new_events self (snd (list_all_entities B self))) = []).
Proof.
  split.
  - rewrite query_entity_run.
    destruct (db_query_frames B entity_name (db self)) as [[frames | e] d]; simpl;
      (split; [reflexivity |]);
      erewrite new_events_app by (simpl; rewrite <- ?app_assoc; reflexivity);
      reflexivity.
  - rewrite list_all_entities_run.
    destruct (db_list_entities B (db self)) as [[entities | e] d]; simpl;
      (split; [reflexivity |]);
      erewrite new_events_app by (simpl; rewrite <- ?app_assoc; reflexivity);
      reflexivity.
Qed.

(** Listing and asking agree on emptiness: over a store whose read calls
    leave it as it was, once [list_all_entities] has reported an empty
    list, a question asked next gets the "Database is empty" answer and
    sends no request. *)
Theorem empty_listing_then_question
  (query_text : string) (self : TextToHawkinsDB B) (env : pyval) :
  reads_preserve_store B ->
  fst (list_all_entities B self) = Ok env ->
  get "entities" env = Some (PList []) ->
  let self1 := snd (list_all_entities B self) in
  fst (query_by_text B query_text self1) = Ok database_is_empty /\
  List.filter is_chat (new_events self (snd (query_by_text B query_text self1))) = [].
Proof.
  intros [Hlist _] Henv Hent. simpl.
  rewrite list_all_entities_run in *.
  pose proof (Hlist (db self)) as Hd.
  destruct (db_list_entities B (db self)) as [[entities | e] d] eqn:Hl;
    simpl in *; subst d.
  - injection Henv as <-. simpl in Hent.
    destruct entities as [| first others]; [| discriminate Hent].
    assert (Hl' : db_list_entities B
                    (db (set_db B (db self) (emit EvListEntities self)))
                  = (Ok [], db self)) by exact Hl.
    unfold query_by_text, try_except, query_by_text_body, bind.
    rewrite (list_entities_run _ _ _ _ Hl'). simpl.
    split; [reflexivity |].
    erewrite new_events_app by (simpl; rewrite <- ?app_assoc; reflexivity).
    reflexivity.
  - injection Henv as <-. discriminate Hent.
Qed.

End Lookup.

(** ** The envelopes *)

Section Envelopes.

Context (B : Backend).

Lemma try_block_Ok_keys (op : operation) (self self' : TextToHawkinsDB B) v :
  try_block B op self = (Ok v, self') ->
  keys_of v = Some (envelope_keys op) /\
  exists msg, get "message" v = Some (PStr msg).
Proof.
  destruct op as [text | entity_name | query_text |]; simpl; intros H.
  - unfold add_to_db_body in H.
    apply bind_Ok_inv in H as (json_data & s1 & _ & H).
    apply bind_Ok_inv in H as (dumped & s2 & _ & H).
    apply bind_Ok_inv in H as (u & s3 & _ & H).
    apply bind_Ok_inv in H as (result & s4 & _ & H).
    apply ret_Ok_inv in H. subst v. split; [reflexivity | eexists; reflexivity].
  - unfold query_entity_body in H.
    apply bind_Ok_inv in H as (frames & s1 & _ & H).
    destruct (truthy frames); simpl in H; apply ret_Ok_inv in H; subst v;
      (split; [reflexivity | eexists; reflexivity]).
  - unfold query_by_text_body in H.
    apply bind_Ok_inv in H as (entities & s1 & _ & H).
    destruct entities as [| first others].
    + apply ret_Ok_inv in H. subst v. split; [reflexivity | eexists; reflexivity].
    + apply bind_Ok_inv in H as (context & s2 & _ & H).
      apply bind_Ok_inv in H as (answer & s3 & _ & H).
      apply ret_Ok_inv in H. subst v. split; [reflexivity | eexists; reflexivity].
  - unfold list_all_entities_body in H.
    apply bind_Ok_inv in H as (entities & s1 & _ & H).
    apply ret_Ok_inv in H. subst v. split; [reflexivity | eexists; reflexivity].
Qed.

(** Each operation answers with a dict whose keys depend on the
    operation alone, in success and in failure alike: [success],
    [message], then its payload keys; [success] is a boolean and
    [message] a string, so both can always be read. *)
Theorem envelope_shape (op : operation) (self : TextToHawkinsDB B) :
  exists v b msg,
    fst (call B op self) = Ok v /\
    keys_of v = Some (envelope_keys op) /\
    get "success" v = Some (PBool b) /\
    get "message" v = Some (PStr msg).
Proof.
  rewrite call_fst.
  destruct (try_block B op self) as [[v | e] self1] eqn:E.
  - destruct (try_block_Ok_keys _ _ _ _ E) as (Hk & msg & Hm).
    destruct (try_block_Ok_shape _ _ _ _ _ E) as [Ht | (entity_name & -> & ->)].
    + exists v, true, msg. repeat split; assumption.
    + eexists _, false, _. repeat split; reflexivity.
  - exists (failure_envelope op e), false, (str e).
    destruct op; repeat split; reflexivity.
Qed.

(** For [add_to_db], [query_by_text] and [list_all_entities] the
    [success] flag says exactly whether the [try] block ran through:
    true when it returned, false when it raised. *)
Theorem success_flag_tells_whether_block_raised
  (op : operation) (self : TextToHawkinsDB B) :
  (forall entity_name, op <> QueryEntity entity_name) ->
  exists v,
    fst (call B op self) = Ok v /\
    get "success" v
      = Some (PBool match fst (try_block B op self) with
                    | Ok _ => true
                    | Raise _ => false
                    end).
Proof.
  intros Hop. rewrite call_fst.
  destruct (try_block B op self) as [[v | e] self1] eqn:E; simpl.
  - exists v. split; [reflexivity |].
    destruct (try_block_Ok_shape _ _ _ _ _ E) as [Ht | (entity_name & Heq & _)].
    + exact Ht.
    + exfalso. exact (Hop entity_name Heq).
  - exists (failure_envelope op e). split; [reflexivity |].
    destruct op; reflexivity.
Qed.

End Envelopes.

(** ** Asking a question *)

Section Asking.

Context (B : Backend).

Lemma filter_store_queries (names : list string) :
  List.filter is_store_event (map EvQueryFrames names) = map EvQueryFrames names.
Proof.
  induction names as [| n rest IH]; simpl; [reflexivity | rewrite IH; reflexivity].
Qed.

Lemma filter_truthy_of_falsy (frs : list pyval) :
  forallb (fun v => negb (truthy v)) frs = true -> List.filter truthy frs = [].
Proof.
  induction frs as [| v rest IH]; simpl; [reflexivity |].
  destruct (truthy v); simpl; [discriminate | exact IH].
Qed.

(** [query_by_text] once the context could be built. *)
Lemma query_by_text_run_ok
  (query_text : string) (self : TextToHawkinsDB B)
  (entities : list string) (d1 d2 : Store B) (frs : list pyval) (blocks : list string) :
  db_list_entities B (db self) = (Ok entities, d1) ->
  entities <> [] ->
  fetch_frames B (firstn 5 entities) d1 = (Ok frs, d2) ->
  serialize_all B (List.filter truthy frs) = Ok blocks ->
  query_by_text B query_text self =
  let self2 :=
    emit (EvChat (answer_request blocks query_text))
      (Self (api_key self) (client self) d2
         ((trace self ++ [EvListEntities])
          ++ map EvQueryFrames (firstn 5 entities))) in
  match chat_create B (answer_request blocks query_text) (client self) with
  | (Ok answer, o) => (Ok (query_processed answer), set_client B o self2)
  | (Raise e, o) =>
      (Ok (query_by_text_failed e),
       emit (EvLog "ERROR" ("Error processing query: " +:+ str e))
         (set_client B o self2))
  end.
Proof.
  intros Hl Hne Hf Hs.
  destruct entities as [| first others]; [contradiction |].
  remember (firstn 5 (first :: others)) as names eqn:Hnames.
  set (self1 := set_db B d1 (emit EvListEntities self)).
  pose proof (build_context_run B names [] self1 d1 eq_refl) as Hrun.
  rewrite Hf, Hs in Hrun.
  unfold query_by_text, try_except, query_by_text_body.
  unfold bind at 1. rewrite (list_entities_run _ _ _ _ Hl).
  rewrite <- Hnames. fold self1.
  unfold bind at 1. rewrite Hrun. simpl app at 1.
  unfold bind at 1.
  match goal with |- context [client_create B ?r ?s] =>
    destruct (chat_create B r (client s)) as [[answer | e] o] eqn:Hc;
    rewrite (client_create_run _ _ _ _ _ Hc)
  end.
  - change (chat_create B (answer_request blocks query_text) (client self)
            = (Ok answer, o)) in Hc.
    cbv zeta. rewrite Hc. reflexivity.
  - change (chat_create B (answer_request blocks query_text) (client self)
            = (Raise e, o)) in Hc.
    cbv zeta. rewrite Hc. reflexivity.
Qed.

(** The answer of the model is handed on as it came: the [response] of
    the envelope is the content of the reply, and [success] is true even
    when that content is [None]. *)
Theorem query_by_text_answer_verbatim
  (query_text : string) (self : TextToHawkinsDB B)
  (entities : list string) (d1 d2 : Store B) (frs : list pyval)
  (blocks : list string) (answer : option string) (o : Oracle B) :
  db_list_entities B (db self) = (Ok entities, d1) ->
  entities <> [] ->
  fetch_frames B (firstn 5 entities) d1 = (Ok frs, d2) ->
  serialize_all B (List.filter truthy frs) = Ok blocks ->
  chat_create B (answer_request blocks query_text) (client self) = (Ok answer, o) ->
  fst (query_by_text B query_text self)
    = Ok (PDict [("success", PBool true);
                 ("message", PStr "Query processed successfully");
                 ("response", match answer with
                              | Some text => PStr text
                              | None => PNone
                              end)]) /\
  client (snd (query_by_text B query_text self)) = o /\
  db (snd (query_by_text B query_text self)) = d2.
Proof.
  intros Hl Hne Hf Hs Hc.
  rewrite (query_by_text_run_ok _ _ _ _ _ _ _ Hl Hne Hf Hs). cbv zeta.
  rewrite Hc. repeat split; reflexivity.
Qed.

(** A store that lists entities none of which has frames is not taken
    for an empty store: the model is asked all the same, with nothing in
    the place of the context. *)
Theorem query_by_text_asks_with_empty_context
  (query_text : string) (self : TextToHawkinsDB B)
  (entities : list string) (d1 d2 : Store B) (frs : list pyval) :
  db_list_entities B (db self) = (Ok entities, d1) ->
  entities <> [] ->
  fetch_frames B (firstn 5 entities) d1 = (Ok frs, d2) ->
  forallb (fun v => negb (truthy v)) frs = true ->
  List.filter is_chat (new_events self (snd (query_by_text B query_text self)))
    = [EvChat {| model := "gpt4o";
                 messages :=
                   [Message "system"
                      (answer_prompt_head +:+ answer_prompt_mid +:+ query_text
                       +:+ answer_prompt_tail)];
                 temperature := "0.3";
                 max_tokens := Some 500%Z;
                 response_format := None |}].
Proof.
  intros Hl Hne Hf Hfalsy.
  assert (Hs : serialize_all B (List.filter truthy frs) = Ok [])
    by (rewrite (filter_truthy_of_falsy _ Hfalsy); reflexivity).
  rewrite (query_by_text_run_ok _ _ _ _ _ _ _ Hl Hne Hf Hs). cbv zeta.
  remember (firstn 5 entities) as names eqn:Hnames.
  destruct (chat_create B (answer_request [] query_text) (client self))
    as [[answer | e] o];
    erewrite new_events_app by (simpl; rewrite <- ?app_assoc; reflexivity);
    rewrite !List.filter_app, filter_chat_queries; reflexivity.
Qed.

(** The frame queries the loop makes are those of a prefix of the list
    it is given, in that order, and all of it when the loop ends well. *)
Lemma build_context_queries (names context : list string) (self : TextToHawkinsDB B) :
  exists asked rest,
    names = asked ++ rest /\
    trace (snd (build_context B names context self))
      = trace self ++ map EvQueryFrames asked.
Proof.
  revert context self.
  induction names as [| entity_name others IH]; intros context self; simpl.
  - exists [], []. split; [reflexivity | simpl; rewrite app_nil_r; reflexivity].
  - unfold bind at 1.
    destruct (db_query_frames B entity_name (db self)) as [[frames | e] d] eqn:Hq;
      rewrite (query_frames_run _ _ _ _ _ Hq).
    + set (self1 := set_db B d (emit (EvQueryFrames entity_name) self)).
      destruct (truthy frames).
      * unfold bind at 1, lift.
        destruct (json_dumps B frames) as [block | e].
        -- destruct (IH (context ++ [block]) self1) as (asked & rest & -> & Ht).
           exists (entity_name :: asked), rest. split; [reflexivity |].
           rewrite Ht. simpl. rewrite <- app_assoc. reflexivity.
        -- exists [entity_name], others. split; reflexivity.
      * destruct (IH context self1) as (asked & rest & -> & Ht).
        exists (entity_name :: asked), rest. split; [reflexivity |].
        rewrite Ht. simpl. rewrite <- app_assoc. reflexivity.
    + exists [entity_name], others. split; reflexivity.
Qed.

(** However many entities the store lists, [query_by_text] calls it for
    the listing and then for the frames of a prefix of the first five
    entities, in listing order: at most five frame queries, none for a
    sixth entity, and no write. *)
Theorem query_by_text_store_calls
  (query_text : string) (self : TextToHawkinsDB B)
  (entities : list string) (d1 : Store B) :
  db_list_entities B (db self) = (Ok entities, d1) ->
  exists asked rest,
    firstn 5 entities = asked ++ rest /\
    List.length asked <= 5 /\
    List.filter is_store_event
      (new_events self (snd (query_by_text B query_text self)))
      = EvListEntities :: map EvQueryFrames asked.
Proof.
  intros Hl.
  assert (Hlen : forall asked rest,
            firstn 5 entities = asked ++ rest -> List.length asked <= 5).
  { intros asked rest E.
    pose proof (firstn_le_length 5 entities) as H5.
    rewrite E, length_app in H5. lia. }
  unfold query_by_text, try_except, query_by_text_body.
  unfold bind at 1. rewrite (list_entities_run _ _ _ _ Hl).
  destruct entities as [| first others].
  - exists [], []. split; [reflexivity | split; [simpl; lia |]].
    simpl. erewrite new_events_app by reflexivity. reflexivity.
  - remember (firstn 5 (first :: others)) as names eqn:Hnames.
    destruct (build_context_queries names []
                (set_db B d1 (emit EvListEntities self)))
      as (asked & rest & Hn & Ht).
    exists asked, rest. split; [exact Hn | split; [exact (Hlen _ _ Hn) |]].
    unfold bind at 1.
    destruct (build_context B names [] (set_db B d1 (emit EvListEntities self)))
      as [[context | e] self2]; simpl in Ht.
    + unfold bind at 1.
      match goal with |- context [client_create B ?r ?s] =>
        destruct (chat_create B r (client s)) as [[answer | e] o] eqn:Hc;
        rewrite (client_create_run _ _ _ _ _ Hc)
      end;
        erewrite new_events_app
          by (simpl; rewrite Ht, <- ?app_assoc; reflexivity);
        simpl; rewrite !List.filter_app, filter_store_queries; simpl;
        rewrite ?app_nil_r; reflexivity.
    + erewrite new_events_app
        by (simpl; rewrite Ht, <- ?app_assoc; reflexivity).
      simpl. rewrite !List.filter_app, filter_store_queries. simpl.
      rewrite ?app_nil_r. reflexivity.
Qed.

End Asking.

(** ** The demonstration *)

Section Demonstration.

Context (B : Backend).

Lemma dumps_only_ret {A} (a : A) : raises_only_from_dumps (@ret B A a).
Proof. intros self e H. discriminate H. Qed.

Lemma dumps_only_logger_info (msg : string) :
  raises_only_from_dumps (logger_info B msg).
Proof. intros self e H. discriminate H. Qed.

Lemma dumps_only_lift (v : pyval) :
  @raises_only_from_dumps B _ (lift (json_dumps B v)).
Proof. intros self e H. exists v. exact H. Qed.

Lemma dumps_only_call (op : operation) : raises_only_from_dumps (call B op).
Proof.
  intros self e H. rewrite call_fst in H.
  destruct (try_block B op self) as [[v | e0] self1]; discriminate H.
Qed.

Lemma dumps_only_bind {A C} (m : M B A) (k : A -> M B C) :
  raises_only_from_dumps m -> (forall a, raises_only_from_dumps (k a)) ->
  raises_only_from_dumps (bind m k).
Proof.
  intros Hm Hk self e. unfold bind.
  specialize (Hm self).
  destruct (m self) as [[a | e0] self1]; simpl in *.
  - apply Hk.
  - intros H. injection H as ->. apply Hm. reflexivity.
Qed.

Lemma dumps_only_add_examples (i : nat) (todo : list string) :
  raises_only_from_dumps (add_examples B i todo).
Proof.
  revert i. induction todo as [| example rest IH]; intros i; simpl.
  - apply dumps_only_ret.
  - apply dumps_only_bind; [apply dumps_only_logger_info | intros _].
    apply dumps_only_bind; [apply dumps_only_logger_info | intros _].
    apply dumps_only_bind; [apply (dumps_only_call (AddToDb example)) | intros result].
    apply dumps_only_bind; [apply dumps_only_lift | intros dumped].
    apply dumps_only_bind; [apply dumps_only_logger_info | intros _].
    apply IH.
Qed.

Lemma dumps_only_ask_queries (todo : list string) :
  raises_only_from_dumps (ask_queries B todo).
Proof.
  induction todo as [| query rest IH]; simpl.
  - apply dumps_only_ret.
  - apply dumps_only_bind; [apply dumps_only_logger_info | intros _].
    apply dumps_only_bind; [apply (dumps_only_call (QueryByText query)) | intros result].
    apply dumps_only_bind; [apply dumps_only_lift | intros dumped].
    apply dumps_only_bind; [apply dumps_only_logger_info | intros _].
    apply IH.
Qed.

Lemma dumps_only_until_print : raises_only_from_dumps (harness_until_print B).
Proof.
  unfold harness_until_print.
  apply dumps_only_bind; [apply dumps_only_logger_info | intros _].
  apply dumps_only_bind; [apply dumps_only_add_examples | intros _].
  apply dumps_only_bind; [apply dumps_only_logger_info | intros _].
  apply dumps_only_bind; [apply dumps_only_logger_info | intros _].
  apply dumps_only_bind; [apply (dumps_only_call ListAllEntities) | intros result].
  apply dumps_only_bind; [apply dumps_only_lift | intros dumped].
  apply dumps_only_bind; [apply dumps_only_logger_info | intros _].
  apply dumps_only_bind; [apply dumps_only_logger_info | intros _].
  apply (dumps_only_call (QueryEntity "Python_Language")).
Qed.

Lemma dumps_only_after_print : raises_only_from_dumps (harness_after_print B).
Proof.
  unfold harness_after_print.
  apply dumps_only_bind; [apply dumps_only_logger_info | intros _].
  apply dumps_only_ask_queries.
Qed.

(** Run as a script, the file stops at the first statement of
    [test_memory_examples]: the import has emptied the variable, the
    constructor is given no key, so the missing-credential error is
    raised, whatever the environment held; no object exists and nothing
    is printed. *)
Theorem main_stops_at_construction (environ : gmap string string) :
  main B environ
    = Outcome B (Raise (ValueError "OpenAI API key is required")) None [].
Proof.
  unfold main, test_memory_examples.
  assert (E : getenv (import_module environ) OPENAI_API_KEY = Some EmptyString).
  { unfold getenv, import_module. apply lookup_insert_eq. }
  unfold __init__. simpl. rewrite E. reflexivity.
Qed.

(** Nothing but the construction and [json.dumps] can stop
    [test_memory_examples]: an exception that leaves it was raised by the
    constructor or by the serialisation of a result for a log line; the
    errors of the client and of the store end up in envelopes. *)
Theorem test_memory_examples_abort_causes
  (environ : gmap string string) (e : exn) :
  returned (test_memory_examples B environ) = Raise e ->
  __init__ B None environ = Raise e \/ exists v, json_dumps B v = Raise e.
Proof.
  unfold test_memory_examples.
  destruct (__init__ B None environ) as [self0 | e0]; simpl.
  - pose proof (dumps_only_until_print self0) as H1.
    destruct (harness_until_print B self0) as [[entity_result | e1] self1];
      simpl in *.
    + pose proof (dumps_only_after_print self1) as H2.
      destruct (harness_after_print B self1) as [r self2]; simpl in *.
      intros ->. right. apply (H2 e). reflexivity.
    + intros H. injection H as ->. right. apply (H1 e). reflexivity.
  - intros H. injection H as ->. left. reflexivity.
Qed.

(** With an object constructed and a [json.dumps] that serialises every
    value, [test_memory_examples] runs to its end whatever the client and
    the store do, and prints once: the envelope of the lookup of
    [Python_Language]. *)
Theorem test_memory_examples_completes
  (environ : gmap string string) (self0 : TextToHawkinsDB B) :
  __init__ B None environ = Ok self0 ->
  (forall v, exists s, json_dumps B v = Ok s) ->
  returned (test_memory_examples B environ) = Ok tt /\
  exists self1 env,
    fst (query_entity B "Python_Language" self1) = Ok env /\
    stdout (test_memory_examples B environ) = [env].
Proof.
  intros Hinit Hdumps.
  assert (Hno : forall A (m : M B A) self,
            raises_only_from_dumps m -> exists a, fst (m self) = Ok a).
  { intros A m self Hm. specialize (Hm self).
    destruct (fst (m self)) as [a | e]; [eauto |].
    destruct (Hm e eq_refl) as (v & Hv).
    destruct (Hdumps v) as (s & Hs). rewrite Hs in Hv. discriminate Hv. }
  unfold test_memory_examples. rewrite Hinit.
  destruct (Hno _ _ self0 dumps_only_until_print) as (entity_result & H1).
  assert (Hprint : exists self1,
            fst (query_entity B "Python_Language" self1) = Ok entity_result).
  { unfold harness_until_print in H1.
    repeat match type of H1 with
           | fst (bind ?m ?k ?s) = Ok _ =>
               unfold bind at 1 in H1;
               destruct (m s) as [[? | ?] ?]; [| discriminate H1]
           end.
    eexists. exact H1. }
  destruct (harness_until_print B self0) as [[v | e1] self1]; simpl in H1;
    [| discriminate H1].
  injection H1 as ->.
  destruct (Hno _ _ self1 dumps_only_after_print) as ([] & H2).
  destruct (harness_after_print B self1) as [r self2]; simpl in *.
  split; [exact H2 |].
  destruct Hprint as (s & Hs). exists s, entity_result. split; [exact Hs | reflexivity].
Qed.

End Demonstration.

(** ** The requests the demonstration sends *)

Section DemonstrationRequests.

Context (B : Backend).

Lemma sends_refl (self : TextToHawkinsDB B) : sends [] self self.
Proof. exists []. split; [symmetry; apply app_nil_r | reflexivity]. Qed.

Lemma sends_trans (l1 l2 : list request) (s1 s2 s3 : TextToHawkinsDB B) :
  sends l1 s1 s2 -> sends l2 s2 s3 -> sends (l1 ++ l2) s1 s3.
Proof.
  intros (evs1 & E1 & F1) (evs2 & E2 & F2).
  exists (evs1 ++ evs2). split.
  - rewrite E2, E1. symmetry. apply app_assoc.
  - rewrite List.filter_app, F1, F2, List.map_app. reflexivity.
Qed.

Lemma sends_nil_trans (s1 s2 s3 : TextToHawkinsDB B) :
  sends [] s1 s2 -> sends [] s2 s3 -> sends [] s1 s3.
Proof. intros H1 H2. exact (sends_trans [] [] _ _ _ H1 H2). Qed.

Lemma sends_emit_log (level msg : string) (self : TextToHawkinsDB B) :
  sends [] self (emit (EvLog level msg) self).
Proof. exists [EvLog level msg]. split; reflexivity. Qed.

Lemma silent_logger_info (msg : string) : respects (sends []) (logger_info B msg).
Proof. intros self. apply sends_emit_log. Qed.

Lemma silent_lift {A} (r : result A) : @respects B (sends []) A (lift r).
Proof. intros self. apply sends_refl. Qed.

Lemma silent_query_entity (entity_name : string) :
  respects (sends []) (query_entity B entity_name).
Proof.
  intros self. rewrite query_entity_run.
  destruct (db_query_frames B entity_name (db self)) as [[frames | e] d];
    eexists; (split; [simpl; rewrite <- ?app_assoc; reflexivity | reflexivity]).
Qed.

Lemma silent_list_all_entities : respects (sends []) (list_all_entities B).
Proof.
  intros self. rewrite list_all_entities_run.
  destruct (db_list_entities B (db self)) as [[entities | e] d];
    eexists; (split; [simpl; rewrite <- ?app_assoc; reflexivity | reflexivity]).
Qed.

Lemma add_to_db_sends (text : string) (self : TextToHawkinsDB B) :
  sends [extraction_request text] self (snd (add_to_db B text self)).
Proof. apply add_to_db_trace. Qed.

(** [query_by_text] sends nothing, or one answer request for its question. *)
Lemma query_by_text_sends (query_text : string) (self : TextToHawkinsDB B) :
  exists sent,
    sends sent self (snd (query_by_text B query_text self)) /\
    (sent = [] \/ exists context, sent = [answer_request context query_text]).
Proof.
  unfold query_by_text, try_except, query_by_text_body.
  unfold bind at 1.
  destruct (db_list_entities B (db self)) as [[entities | e] d1] eqn:Hl;
    rewrite (list_entities_run _ _ _ _ Hl).
  - destruct entities as [| first others].
    + exists []. split; [| left; reflexivity].
      exists [EvListEntities]. split; reflexivity.
    + remember (firstn 5 (first :: others)) as names eqn:Hnames.
      pose proof (build_context_extends B (fun ev => negb (is_chat ev)) names []
                    (fun _ => eq_refl) (set_db B d1 (emit EvListEntities self)))
        as (evs & Ht & Hf).
      apply filter_chat_of_non_chat in Hf.
      unfold bind at 1.
      destruct (build_context B names [] (set_db B d1 (emit EvListEntities self)))
        as [[context | e] self2]; simpl in Ht.
      * exists [answer_request context query_text].
        split; [| right; eexists; reflexivity].
        unfold bind at 1.
        match goal with |- context [client_create B ?r ?s] =>
          destruct (chat_create B r (client s)) as [[answer | e] o] eqn:Hc;
          rewrite (client_create_run _ _ _ _ _ Hc)
        end;
          eexists;
          (split;
           [ simpl; rewrite Ht, <- ?app_assoc; reflexivity
           | simpl; rewrite !List.filter_app, Hf; reflexivity ]).
      * exists []. split; [| left; reflexivity].
        eexists.
        split;
          [ simpl; rewrite Ht, <- ?app_assoc; reflexivity
          | simpl; rewrite !List.filter_app, Hf; reflexivity ].
  - exists []. split; [| left; reflexivity].
    eexists. split; [simpl; rewrite <- ?app_assoc; reflexivity | reflexivity].
Qed.

Lemma call_returns (op : operation) (self : TextToHawkinsDB B) :
  exists v, fst (call B op self) = Ok v.
Proof.
  rewrite call_fst.
  destruct (try_block B op self) as [[v | e] self1]; eauto.
Qed.

Lemma bind_logger_info {C} (msg : string) (k : unit -> M B C) (self : TextToHawkinsDB B) :
  bind (logger_info B msg) k self = k tt (emit (EvLog "INFO" msg) self).
Proof. reflexivity. Qed.

Lemma bind_unfold {A C} (m : M B A) (k : A -> M B C) (self : TextToHawkinsDB B) :
  bind m k self =
  match m self with
  | (Ok a, self') => k a self'
  | (Raise e, self') => (Raise e, self')
  end.
Proof. reflexivity. Qed.

Lemma bind_lift {A C} (r : result A) (k : A -> M B C) (self : TextToHawkinsDB B) :
  bind (lift r) k self =
  match r with
  | Ok a => k a self
  | Raise e => (Raise e, self)
  end.
Proof. destruct r; reflexivity. Qed.

(** The loop over the examples sends the extraction requests of a prefix
    of them, in order, and of all of them when it ends well. *)
Lemma add_examples_sends (i : nat) (todo : list string) (self : TextToHawkinsDB B) :
  exists k,
    sends (map extraction_request (firstn k todo)) self
      (snd (add_examples B i todo self)) /\
    match fst (add_examples B i todo self) with
    | Ok _ => firstn k todo = todo
    | Raise _ => True
    end.
Proof.
  revert i self. induction todo as [| example rest IH]; intros i self.
  - exists 0. split; [apply sends_refl | reflexivity].
  - simpl add_examples.
    rewrite bind_logger_info. cbv beta.
    rewrite bind_logger_info. cbv beta.
    set (s1 := emit (EvLog "INFO" (nl +:+ "Adding Example " +:+ pretty i)) self).
    set (s2 := emit (EvLog "INFO" rule_50) s1).
    assert (H12 : sends [] self s2).
    { apply (sends_nil_trans self s1 s2); apply sends_emit_log. }
    destruct (call_returns (AddToDb example) s2) as (result & Hres).
    pose proof (add_to_db_sends example s2) as Hadd.
    simpl call in Hres.
    rewrite bind_unfold.
    destruct (add_to_db B example s2) as [r s3]. simpl in Hres, Hadd. subst r.
    rewrite bind_lift.
    destruct (json_dumps B result) as [dumped | e].
    + rewrite bind_logger_info. cbv beta.
      set (s4 := emit (EvLog "INFO" ("Result: " +:+ dumped)) s3).
      destruct (IH (S i) s4) as (k & Hs & Hk).
      exists (S k). split.
      * exact (sends_trans [] _ _ _ _ H12
                 (sends_trans [extraction_request example] _ _ _ _ Hadd
                    (sends_trans [] _ _ _ _ (sends_emit_log _ _ s3) Hs))).
      * destruct (fst (add_examples B (S i) rest s4)); [| exact I].
        simpl. rewrite Hk. reflexivity.
    + exists 1. split; [| exact I].
      exact (sends_trans [] _ _ _ _ H12 Hadd).
Qed.

(** The loop over the questions sends at most one answer request per
    question, each for one of the questions. *)
Lemma ask_queries_sends (todo : list string) (self : TextToHawkinsDB B) :
  exists answers,
    sends answers self (snd (ask_queries B todo self)) /\
    List.length answers <= List.length todo /\
    Forall (fun r => exists context query,
                       In query todo /\ r = answer_request context query) answers.
Proof.
  revert self. induction todo as [| query rest IH]; intros self.
  - exists []. split; [apply sends_refl | split; [reflexivity | constructor]].
  - simpl ask_queries.
    rewrite bind_logger_info. cbv beta.
    set (s1 := emit (EvLog "INFO" (nl +:+ "Query: " +:+ query)) self).
    destruct (call_returns (QueryByText query) s1) as (result & Hres).
    destruct (query_by_text_sends query s1) as (sent & Hsent & Hshape).
    simpl call in Hres.
    rewrite bind_unfold.
    destruct (query_by_text B query s1) as [r s2]. simpl in Hres, Hsent. subst r.
    assert (Hlen : List.length sent <= 1)
      by (destruct Hshape as [-> | (context & ->)]; simpl; lia).
    assert (Hall : Forall (fun r => exists context q,
                             In q (query :: rest) /\ r = answer_request context q) sent).
    { destruct Hshape as [-> | (context & ->)]; constructor; [| constructor].
      exists context, query. split; [left; reflexivity | reflexivity]. }
    assert (H02 : sends sent self s2)
      by exact (sends_trans [] _ _ _ _ (sends_emit_log _ _ self) Hsent).
    rewrite bind_lift.
    destruct (json_dumps B result) as [dumped | e].
    + rewrite bind_logger_info. cbv beta.
      set (s3 := emit (EvLog "INFO" ("Response: " +:+ dumped)) s2).
      destruct (IH s3) as (answers & Hs & Hl & Hf).
      exists (sent ++ answers). split; [| split].
      * exact (sends_trans _ _ _ _ _ H02
                 (sends_trans [] _ _ _ _ (sends_emit_log _ _ s2) Hs)).
      * rewrite length_app. simpl. lia.
      * apply Forall_app. split; [exact Hall |].
        eapply List.Forall_impl; [| exact Hf].
        intros r (context & q & Hin & ->).
        exists context, q. split; [right; exact Hin | reflexivity].
    + exists sent. split; [exact H02 | split; [simpl; lia | exact Hall]].
Qed.

Lemma until_print_sends (self : TextToHawkinsDB B) :
  exists k,
    sends (map extraction_request (firstn k examples)) self
      (snd (harness_until_print B self)) /\
    match fst (harness_until_print B self) with
    | Ok _ => firstn k examples = examples
    | Raise _ => True
    end.
Proof.
  unfold harness_until_print.
  rewrite bind_logger_info. cbv beta.
  set (s1 := emit (EvLog "INFO" (nl +:+ "Adding examples to database:")) self).
  destruct (add_examples_sends 1 examples s1) as (k & Hs & Hk).
  exists k.
  assert (H02 : sends (map extraction_request (firstn k examples)) self
                  (snd (add_examples B 1 examples s1)))
    by exact (sends_trans [] _ _ _ _ (sends_emit_log _ _ self) Hs).
  rewrite bind_unfold.
  destruct (add_examples B 1 examples s1) as [[u | e] s2]; simpl in Hk, H02;
    [| split; [exact H02 | exact I]].
  match goal with |- context [snd (?tail s2)] =>
    assert (Htail : respects (sends []) tail)
  end.
  { apply respects_bind; [apply sends_nil_trans | apply silent_logger_info | intros _].
    apply respects_bind; [apply sends_nil_trans | apply silent_logger_info | intros _].
    apply respects_bind; [apply sends_nil_trans | apply silent_list_all_entities | intros r].
    apply respects_bind; [apply sends_nil_trans | apply silent_lift | intros dumped].
    apply respects_bind; [apply sends_nil_trans | apply silent_logger_info | intros _].
    apply respects_bind; [apply sends_nil_trans | apply silent_logger_info | intros _].
    apply silent_query_entity. }
  split.
  - pose proof (sends_trans _ [] _ _ _ H02 (Htail s2)) as H.
    rewrite app_nil_r in H. exact H.
  - match goal with |- match fst ?x with _ => _ end => destruct (fst x) end;
      [exact Hk | exact I].
Qed.

Lemma init_trace (key : option string) (environ : gmap string string)
  (self : TextToHawkinsDB B) :
  __init__ B key environ = Ok self -> trace self = [].
Proof.
  unfold __init__.
  destruct (negb (truthy (of_opt_str (or_ key (getenv environ OPENAI_API_KEY)))));
    [discriminate |].
  destruct (or_ key (getenv environ OPENAI_API_KEY)) as [k |]; [| discriminate].
  destruct (new_client B k) as [c | e]; [| discriminate].
  destruct (new_db B "sqlite") as [d | e]; [| discriminate].
  intros H. injection H as <-. reflexivity.
Qed.

(** Whenever [test_memory_examples] gets an object, the requests it
    sends are, in this order: the extraction requests for a prefix of
    the three example texts, then at most three answer requests, each
    for one of the three questions; and an answer request is sent only
    once all three examples have been through extraction. *)
Theorem test_memory_examples_requests
  (environ : gmap string string) (self' : TextToHawkinsDB B) :
  converter (test_memory_examples B environ) = Some self' ->
  exists k answers,
    List.filter is_chat (trace self')
      = map EvChat (map extraction_request (firstn k examples) ++ answers) /\
    List.length answers <= 3 /\
    Forall (fun r => exists context query,
                       In query test_queries /\ r = answer_request context query)
      answers /\
    (answers = [] \/ firstn k examples = examples).
Proof.
  unfold test_memory_examples.
  destruct (__init__ B None environ) as [self0 | e0] eqn:Hinit; [| discriminate].
  apply init_trace in Hinit.
  destruct (until_print_sends self0) as (k & (evs1 & E1 & F1) & Hk).
  destruct (harness_until_print B self0) as [[entity_result | e1] self1];
    simpl in E1, Hk.
  - unfold harness_after_print. rewrite bind_logger_info.
    set (s1 := emit (EvLog "INFO" (nl +:+ "Testing natural language queries:")) self1).
    destruct (ask_queries_sends test_queries s1) as (answers & (evs2 & E2 & F2) & Hl & Hf).
    destruct (ask_queries B test_queries s1) as [r self2]; simpl in E2.
    simpl. intros H. injection H as <-.
    exists k, answers. split; [| split; [exact Hl | split; [exact Hf | right; exact Hk]]].
    rewrite E2. subst s1. simpl. rewrite E1, Hinit. simpl.
    rewrite !List.filter_app, F1, F2. simpl.
    rewrite app_nil_r, List.map_app. reflexivity.
  - simpl. intros H. injection H as <-.
    exists k, []. split; [| split; [simpl; lia | split; [constructor | left; reflexivity]]].
    rewrite E1, Hinit. simpl. rewrite F1, app_nil_r. reflexivity.
Qed.

End DemonstrationRequests.

(** * The further properties on the doubles *)

(** No argument, a key in the environment. *)
Lemma init_success_inversion_witness :
  __init__ Double.backend None {[OPENAI_API_KEY := "sk-test"]}
    = Ok (Double.object [] []) /\
  "sk-test" <> EmptyString /\
  trace (Double.object [] []) = [] /\
  (None = Some "sk-test" \/
   (credential_absent None /\
    getenv {[OPENAI_API_KEY := "sk-test"]} OPENAI_API_KEY = Some "sk-test")).
Proof.
  assert (H : __init__ Double.backend None {[OPENAI_API_KEY := "sk-test"]}
              = Ok (Double.object [] [])) by (vm_compute; reflexivity).
  split; [exact H |].
  apply (init_success_inversion Double.backend None
           {[OPENAI_API_KEY := "sk-test"]} (Double.object [] []) H).
Defined.

(** A key passed as argument, against an empty environment and against
    one that holds another key. *)
Lemma init_argument_wins_witness :
  "sk-arg" <> EmptyString /\
  __init__ Double.backend (Some "sk-arg") {[OPENAI_API_KEY := "sk-env"]}
    = __init__ Double.backend (Some "sk-arg") ∅.
Proof.
  assert (H : "sk-arg" <> EmptyString) by discriminate.
  split; [exact H |].
  apply (init_argument_wins Double.backend "sk-arg"
           {[OPENAI_API_KEY := "sk-env"]} ∅ H).
Defined.

(** An empty string passed as argument. *)
Lemma init_empty_argument_is_no_argument_witness :
  credential_absent (Some EmptyString) /\
  __init__ Double.backend (Some EmptyString) {[OPENAI_API_KEY := "sk-env"]}
    = __init__ Double.backend None {[OPENAI_API_KEY := "sk-env"]}.
Proof.
  assert (H : credential_absent (Some EmptyString)) by (right; reflexivity).
  split; [exact H |].
  apply (init_empty_argument_is_no_argument Double.backend (Some EmptyString)
           {[OPENAI_API_KEY := "sk-env"]} H).
Defined.

(** The reply in the requested format, stored under its name. *)
Lemma add_to_db_success_witness :
  let self := Double.object [Ok (Some Double.reply_as_instructed)] [] in
  let text := "Python is a programming language." in
  fst (add_to_db Double.backend text self)
    = Ok (PDict [("success", PBool true);
                 ("message", PStr "Successfully added to database");
                 ("entity_data", Double.record_as_instructed);
                 ("db_result",
                  PDict [("success", PBool true);
                         ("entity_name", PStr "Python_Language")])]) /\
  db (snd (add_to_db Double.backend text self))
    = [("Python_Language", PDict [("Semantic", Double.record_as_instructed)])] /\
  new_events self (snd (add_to_db Double.backend text self))
    = [EvChat (extraction_request text);
       EvLog "INFO" ("Converted JSON: " +:+ Double.dumps_at 0 Double.record_as_instructed);
       EvAddEntity Double.record_as_instructed].
Proof.
  apply (add_to_db_success Double.backend "Python is a programming language."
           (Double.object [Ok (Some Double.reply_as_instructed)] [])
           Double.record_as_instructed
           (PDict [("success", PBool true); ("entity_name", PStr "Python_Language")])
           (Double.dumps_at 0 Double.record_as_instructed)
           [("Python_Language", PDict [("Semantic", Double.record_as_instructed)])]).
  - vm_compute. reflexivity.
  - reflexivity.
  - vm_compute. reflexivity.
Defined.

(** The client cannot be reached. *)
Lemma add_to_db_extraction_error_logged_twice_witness :
  let self := Double.object [] [] in
  let text := "Python is a programming language." in
  fst (add_to_db Double.backend text self)
    = Ok (PDict [("success", PBool false);
                 ("message", PStr "Connection error.");
                 ("entity_data", PNone);
                 ("db_result", PNone)]) /\
  new_events self (snd (add_to_db Double.backend text self))
    = [EvChat (extraction_request text);
       EvLog "ERROR" "Error converting text to JSON: Connection error.";
       EvLog "ERROR" "Error adding to database: Connection error."].
Proof.
  apply (add_to_db_extraction_error_logged_twice Double.backend
           "Python is a programming language." (Double.object [] [])
           (Exn "APIConnectionError" "Connection error.")).
  vm_compute. reflexivity.
Defined.

(** The reply is the empty object: it has no name and the store refuses it. *)
Lemma add_to_db_store_rejects_witness :
  let self := Double.object [Ok (Some "{}")] [("A", PDict [])] in
  let text := "Nothing to say." in
  fst (add_to_db Double.backend text self)
    = Ok (PDict [("success", PBool false);
                 ("message", PStr "Entity name is required");
                 ("entity_data", PNone);
                 ("db_result", PNone)]) /\
  db (snd (add_to_db Double.backend text self)) = [("A", PDict [])] /\
  new_events self (snd (add_to_db Double.backend text self))
    = [EvChat (extraction_request text);
       EvLog "INFO" "Converted JSON: {}";
       EvAddEntity (PDict []);
       EvLog "ERROR" "Error adding to database: Entity name is required"].
Proof.
  apply (add_to_db_store_rejects Double.backend "Nothing to say."
           (Double.object [Ok (Some "{}")] [("A", PDict [])])
           (PDict []) "{}" (ValueError "Entity name is required") [("A", PDict [])]).
  - vm_compute. reflexivity.
  - reflexivity.
  - vm_compute. reflexivity.
Defined.

(** An entity with frames. *)
Lemma query_entity_reports_frames_witness :
  let self := Double.object [] [("Python_Language", Double.python_frames)] in
  (exists env,
     fst (query_entity Double.backend "Python_Language" self) = Ok env /\
     get "success" env = Some (PBool true) /\
     get "data" env = Some Double.python_frames) /\
  new_events self (snd (query_entity Double.backend "Python_Language" self))
    = [EvQueryFrames "Python_Language"].
Proof.
  apply (query_entity_reports_frames Double.backend "Python_Language"
           (Double.object [] [("Python_Language", Double.python_frames)])
           Double.python_frames [("Python_Language", Double.python_frames)]).
  vm_compute. reflexivity.
Defined.

(** An empty store and a client that would answer. *)
Lemma empty_listing_then_question_witness :
  let self := Double.object [Ok (Some "It is a language.")] [] in
  let self1 := snd (list_all_entities Double.backend self) in
  fst (query_by_text Double.backend "What is Python?" self1)
    = Ok database_is_empty /\
  List.filter is_chat
    (new_events self (snd (query_by_text Double.backend "What is Python?" self1)))
    = [].
Proof.
  apply (empty_listing_then_question Double.backend "What is Python?"
           (Double.object [Ok (Some "It is a language.")] [])
           (entities_retrieved [])).
  - split; [reflexivity |].
    intros entity_name d. simpl. unfold Double.query_frames.
    destruct (assoc entity_name d); reflexivity.
  - vm_compute. reflexivity.
  - reflexivity.
Defined.

(** Listing, over a store that lists one entity. *)
Lemma success_flag_tells_whether_block_raised_witness :
  exists v,
    fst (call Double.backend ListAllEntities (Double.object [] [("A", PDict [])]))
      = Ok v /\
    get "success" v
      = Some (PBool match fst (try_block Double.backend ListAllEntities
                                 (Double.object [] [("A", PDict [])])) with
                    | Ok _ => true
                    | Raise _ => false
                    end).
Proof.
  apply (success_flag_tells_whether_block_raised Double.backend ListAllEntities
           (Double.object [] [("A", PDict [])])).
  intros entity_name. discriminate.
Defined.

(** Six entities, and a reply without content. *)
Lemma query_by_text_answer_verbatim_witness :
  let self := Double.object [Ok None] Double.six_entities in
  fst (query_by_text Double.backend "What is A?" self)
    = Ok (PDict [("success", PBool true);
                 ("message", PStr "Query processed successfully");
                 ("response", PNone)]) /\
  client (snd (query_by_text Double.backend "What is A?" self)) = [] /\
  db (snd (query_by_text Double.backend "What is A?" self)) = Double.six_entities.
Proof.
  apply (query_by_text_answer_verbatim Double.backend "What is A?"
           (Double.object [Ok None] Double.six_entities)
           (map fst Double.six_entities) Double.six_entities Double.six_entities
           (map snd (firstn 5 Double.six_entities))
           (map (Double.dumps_at 0)
              (List.filter truthy (map snd (firstn 5 Double.six_entities))))
           None []).
  - reflexivity.
  - discriminate.
  - vm_compute. reflexivity.
  - vm_compute. reflexivity.
  - vm_compute. reflexivity.
Defined.

(** Two entities are listed and neither has frames. *)
Lemma query_by_text_asks_with_empty_context_witness :
  let self := Double.object [Ok (Some "I do not know.")]
                [("A", PDict []); ("B", PList [])] in
  List.filter is_chat
    (new_events self (snd (query_by_text Double.backend "What is A?" self)))
    = [EvChat {| model := "gpt4o";
                 messages :=
                   [Message "system"
                      (answer_prompt_head +:+ answer_prompt_mid +:+ "What is A?"
                       +:+ answer_prompt_tail)];
                 temperature := "0.3";
                 max_tokens := Some 500%Z;
                 response_format := None |}].
Proof.
  apply (query_by_text_asks_with_empty_context Double.backend "What is A?"
           (Double.object [Ok (Some "I do not know.")]
              [("A", PDict []); ("B", PList [])])
           ["A"; "B"] [("A", PDict []); ("B", PList [])]
           [("A", PDict []); ("B", PList [])]
           [PDict []; PList []]).
  - reflexivity.
  - discriminate.
  - vm_compute. reflexivity.
  - reflexivity.
Defined.

(** Six entities: the sixth is not asked for. *)
Lemma query_by_text_store_calls_witness :
  let self := Double.object [Ok (Some "a")] Double.six_entities in
  exists asked rest,
    firstn 5 (map fst Double.six_entities) = asked ++ rest /\
    List.length asked <= 5 /\
    List.filter is_store_event
      (new_events self (snd (query_by_text Double.backend "What is A?" self)))
      = EvListEntities :: map EvQueryFrames asked.
Proof.
  apply (query_by_text_store_calls Double.backend "What is A?"
           (Double.object [Ok (Some "a")] Double.six_entities)
           (map fst Double.six_entities) Double.six_entities).
  reflexivity.
Defined.

(** No key anywhere: the constructor is what stops the demonstration. *)
Lemma test_memory_examples_abort_causes_witness :
  returned (test_memory_examples Double.backend ∅)
    = Raise (ValueError "OpenAI API key is required") /\
  (__init__ Double.backend None ∅ = Raise (ValueError "OpenAI API key is required") \/
   exists v, json_dumps Double.backend v
               = Raise (ValueError "OpenAI API key is required")).
Proof.
  assert (H : returned (test_memory_examples Double.backend ∅)
              = Raise (ValueError "OpenAI API key is required"))
    by (vm_compute; reflexivity).
  split; [exact H |].
  apply (test_memory_examples_abort_causes Double.backend ∅
           (ValueError "OpenAI API key is required") H).
Defined.

(** A key in the environment, a client that cannot be reached. *)
Lemma test_memory_examples_completes_witness :
  returned (test_memory_examples Double.backend {[OPENAI_API_KEY := "sk-test"]})
    = Ok tt /\
  exists self1 env,
    fst (query_entity Double.backend "Python_Language" self1) = Ok env /\
    stdout (test_memory_examples Double.backend {[OPENAI_API_KEY := "sk-test"]})
      = [env].
Proof.
  apply (test_memory_examples_completes Double.backend
           {[OPENAI_API_KEY := "sk-test"]} (Double.object [] [])).
  - vm_compute. reflexivity.
  - intros v. exists (Double.dumps_at 0 v). reflexivity.
Defined.

(** The same run: three extraction requests, no answer request since
    the store stays empty. *)
Lemma test_memory_examples_requests_witness :
  let self' :=
    snd (harness_after_print Double.backend
           (snd (harness_until_print Double.backend (Double.object [] [])))) in
  converter (test_memory_examples Double.backend {[OPENAI_API_KEY := "sk-test"]})
    = Some self' /\
  exists k answers,
    List.filter is_chat (trace self')
      = map EvChat (map extraction_request (firstn k examples) ++ answers) /\
    List.length answers <= 3 /\
    Forall (fun r => exists context query,
                       In query test_queries /\ r = answer_request context query)
      answers /\
    (answers = [] \/ firstn k examples = examples).
Proof.
  assert (H : converter (test_memory_examples Double.backend
                           {[OPENAI_API_KEY := "sk-test"]})
              = Some (snd (harness_after_print Double.backend
                             (snd (harness_until_print Double.backend
                                     (Double.object [] []))))))
    by (vm_compute; reflexivity).
  split; [exact H |].
  apply (test_memory_examples_requests Double.backend
           {[OPENAI_API_KEY := "sk-test"]} _ H).
Defined.
